(** * AI Legal Document Explainer: the backend handlers of [backend/main.py]

    A shallow embedding of the request handlers and their helpers:
    [extract_text_from_pdf], [analyze_document_with_gemini],
    [upload_document], [chat_with_document] and [get_document_info].

    Python values are modelled as follows.
    - [str] is a list of characters; a character is an 8-bit code point
      (the Latin-1 range of Python's [str]).  [len], slicing, [strip],
      [lower], [startswith] and [endswith] are written out below.
    - [bytes] is a list of bytes.
    - The module-level dictionary [document_store] is a [gmap] keyed by [str].
    - The external collaborators (PyPDF2, google.generativeai, [json.loads],
      pydantic validation, [hash], [datetime.now]) are the fields of an
      environment record [Env]: every theorem quantifies over all of them.
    - Handlers run in a state-and-exception monad over [World]; the world
      records the document store, the prompts sent to the generation
      capability and the number of clock readings. *)

From Stdlib Require Import ZArith Ascii String DecimalString.
From stdpp Require Import gmap strings list fin_maps.

Local Open Scope Z_scope.

(** ** Python strings *)

Abbreviation str := (list ascii).
Abbreviation bytes := (list Byte.byte).

(** A string literal as a [str]. *)
Definition lit (s : string) : str := list_ascii_of_string s.

(** [len(s)] *)
Definition len {A} (s : list A) : Z := Z.of_nat (length s).

(** [s[:n]] for a non-negative [n]. *)
Definition slice_to (n : Z) (s : str) : str := take (Z.to_nat n) s.

(** [s[n:]] for a non-negative [n]. *)
Definition slice_from (n : Z) (s : str) : str := drop (Z.to_nat n) s.

(** [s[:-n]] for a positive [n]: everything but the last [n] characters
    (the empty string when [s] has fewer than [n]). *)
Definition slice_drop_last (n : Z) (s : str) : str :=
  take (length s - Z.to_nat n)%nat s.

(** [s.startswith(p)] *)
Fixpoint startswith (s p : str) {struct p} : bool :=
  match p, s with
  | [], _ => true
  | _ :: _, [] => false
  | c :: p', d :: s' => if decide (c = d) then startswith s' p' else false
  end.

(** [s.endswith(p)] *)
Definition endswith (s p : str) : bool := startswith (reverse s) (reverse p).

(** [sub in s] *)
Fixpoint contains (s sub : str) : bool :=
  startswith s sub ||
  match s with
  | [] => false
  | _ :: s' => contains s' sub
  end.

(** [c.isspace()] on code points below 256: TAB..CR, FS..US, SPACE,
    NEL (0x85) and NBSP (0xA0). *)
Definition isspace (c : ascii) : bool :=
  let n := N_of_ascii c in
  (((9 <=? n) && (n <=? 13)) || ((28 <=? n) && (n <=? 32))
   || (n =? 133) || (n =? 160))%N.

Fixpoint lstrip (s : str) : str :=
  match s with
  | [] => []
  | c :: s' => if isspace c then lstrip s' else s
  end.

Definition rstrip (s : str) : str := reverse (lstrip (reverse s)).

(** [s.strip()] *)
Definition strip (s : str) : str := lstrip (rstrip s).

(** [c.lower()] on code points below 256: A..Z and the Latin-1 capitals
    0xC0..0xDE (0xD7, the multiplication sign, apart) move up by 32. *)
Definition lower_char (c : ascii) : ascii :=
  let n := N_of_ascii c in
  if (((65 <=? n) && (n <=? 90))
      || ((192 <=? n) && (n <=? 222) && negb (n =? 215)))%N
  then ascii_of_N (n + 32) else c.

(** [s.lower()] *)
Definition lower (s : str) : str := map lower_char s.

(** [str(n)] for a non-negative integer. *)
Definition str_of_int (n : Z) : str :=
  lit (NilZero.string_of_uint (N.to_uint (Z.to_N n))).

(** Truthiness of a string: [bool(s)]. *)
Definition truthy (s : str) : bool :=
  match s with [] => false | _ :: _ => true end.

(** Truthiness of an [Optional[str]]: [None] and the empty string are false. *)
Definition truthy_opt (o : option str) : bool :=
  match o with None => false | Some s => truthy s end.

Definition newline : str := ["010"%char].

(** The double quote character. *)
Definition dq : ascii := "034"%char.

(** A literal in which each [^] stands for a double quote. *)
Definition litq (s : string) : str :=
  map (fun c => if decide (c = "^"%char) then dq else c) (lit s).

(** The lines of a text joined by newlines, none after the last. *)
Fixpoint unlines (ls : list str) : str :=
  match ls with
  | [] => []
  | [l] => l
  | l :: ls' => l ++ newline ++ unlines ls'
  end.

(** ** Exceptions and results *)

(** What a call into an external library yields: a value, or an exception
    of that library, kept as its message [str(e)].  None of the libraries
    raises FastAPI's [HTTPException]. *)
Inductive outcome (A : Type) : Type :=
  | Returns (a : A)
  | Raises (msg : str).
Arguments Returns {A} a.
Arguments Raises {A} msg.

(** The exceptions the handlers see: FastAPI's [HTTPException], a subclass
    of [Exception], and every other [Exception], with its message. *)
Inductive exn : Type :=
  | HTTPException (status_code : Z) (detail : str)
  | Exception (msg : str).

Inductive result (A : Type) : Type :=
  | Return (a : A)
  | Raise (e : exn).
Arguments Return {A} a.
Arguments Raise {A} e.

(** ** Data model (lines 51-74) *)

(** A [Dict[str, str]] of an analysis, with its items in order. *)
Abbreviation entry := (list (str * str)).

Record DocumentAnalysis : Type := {
  summary : str;
  key_clauses : list entry;
  obligations : list entry;
  risks : list entry;
  unusual_terms : list entry
}.

Record ChatMessage : Type := {
  message : str;
  document_id : option str;
  document_text : option str
}.

Record DocumentResponse : Type := {
  resp_document_id : str;
  resp_filename : str;
  resp_analysis : DocumentAnalysis;
  resp_text_length : Z
}.

Record ChatResponse : Type := {
  response : str;
  timestamp : str
}.

(** A value of [document_store]: the dictionary of lines 247-252. *)
Record StoredDocument : Type := {
  doc_text : str;
  doc_filename : str;
  doc_upload_time : str;
  doc_file_size : Z
}.

(** The dictionary [get_document_info] returns (lines 364-370). *)
Record DocumentInfo : Type := {
  info_document_id : str;
  info_filename : str;
  info_upload_time : str;
  info_text_length : Z;
  info_text_preview : str
}.

(** The uploaded file: its name, and what [await file.read()] yields. *)
Record UploadFile : Type := {
  file_filename : option str;
  file_read : outcome bytes
}.

(** ** External collaborators *)

(** A page of a parsed PDF, as far as the code looks at it: what
    [page.extract_text()] yields. *)
Record PageObject : Type := { extract_text : outcome str }.

(** The reply of [model.generate_content]: reading [response.text] may
    itself raise (a blocked or empty reply). *)
Record GenerateContentResponse : Type := { response_text : outcome str }.

(** A parsed JSON value; an object keeps its members in order. *)
#[warnings="-register-all"]
Inductive json : Type :=
  | JNull
  | JBool (b : bool)
  | JNumber (repr : str)
  | JString (s : str)
  | JArray (items : list json)
  | JObject (members : list (str * json)).

(** What [json.loads] does on a string: a value, [json.JSONDecodeError],
    or another exception (a [RecursionError] on deep nesting). *)
Inductive loads_result : Type :=
  | Loaded (v : json)
  | JSONDecodeError (msg : str)
  | LoadsError (msg : str).

(** A reading of [datetime.now()], through the two formats the code uses. *)
Record datetime : Type := {
  strftime_Ymd_HMS : str;   (* strftime('%Y%m%d_%H%M%S') *)
  isoformat : str
}.

Record Env : Type := {
  (** [os.getenv("GEMINI_API_KEY", "")] (line 39) *)
  GEMINI_API_KEY : str;
  (** [PyPDF2.PdfReader(io.BytesIO(content)).pages], or the reader's
      exception on a stream that is no PDF *)
  PdfReader : bytes -> outcome (list PageObject);
  (** [genai.GenerativeModel(name)] *)
  GenerativeModel : str -> outcome unit;
  (** [model.generate_content(prompt)] *)
  generate_content : str -> outcome GenerateContentResponse;
  (** [json.loads] *)
  json_loads : str -> loads_result;
  (** pydantic's validation of the five arguments of [DocumentAnalysis(...)] *)
  validate_DocumentAnalysis :
    json -> json -> json -> json -> json -> outcome DocumentAnalysis;
  (** the built-in [hash] on strings *)
  py_hash : str -> Z;
  (** the n-th reading of [datetime.now()] *)
  now : nat -> datetime
}.

(** ** The world and the handler monad *)

Record World : Type := {
  document_store : gmap str StoredDocument;
  (** the prompts sent to [generate_content], oldest first *)
  generation_calls : list str;
  (** how often [datetime.now()] was read *)
  clock_reads : nat
}.

Definition M (A : Type) : Type := World -> result A * World.

Definition ret {A} (a : A) : M A := fun w => (Return a, w).

Definition raise {A} (e : exn) : M A := fun w => (Raise e, w).

Definition bind {A B} (m : M A) (k : A -> M B) : M B :=
  fun w =>
    match m w with
    | (Return a, w') => k a w'
    | (Raise e, w') => (Raise e, w')
    end.

(** [try: m except Exception as e: handler e]; [HTTPException] is an
    [Exception] too, so the handler sees every [exn]. *)
Definition try_except {A} (m : M A) (handler : exn -> M A) : M A :=
  fun w =>
    match m w with
    | (Return a, w') => (Return a, w')
    | (Raise e, w') => handler e w'
    end.

#[global] Instance M_ret : MRet M := @ret.
#[global] Instance M_bind : MBind M := fun A B k m => bind m k.

(** A value an external library returns, or its exception re-raised here. *)
Definition external {A} (o : outcome A) : M A :=
  match o with
  | Returns a => ret a
  | Raises msg => raise (Exception msg)
  end.

Definition get_store : M (gmap str StoredDocument) :=
  fun w => (Return (document_store w), w).

Definition put_store (s : gmap str StoredDocument) : M unit :=
  fun w => (Return tt,
            {| document_store := s;
               generation_calls := generation_calls w;
               clock_reads := clock_reads w |}).

(** The world once the clock has been read. *)
Definition ticked (w : World) : World :=
  {| document_store := document_store w;
     generation_calls := generation_calls w;
     clock_reads := S (clock_reads w) |}.

(** [datetime.now()] *)
Definition datetime_now (E : Env) : M datetime :=
  fun w => (Return (now E (clock_reads w)), ticked w).

(** The world once [prompt] has been sent to the generation capability. *)
Definition sent (w : World) (prompt : str) : World :=
  {| document_store := document_store w;
     generation_calls := generation_calls w ++ [prompt];
     clock_reads := clock_reads w |}.

(** [model.generate_content(prompt)]: the prompt is recorded, then the
    capability answers or raises. *)
Definition model_generate_content (E : Env) (prompt : str)
  : M GenerateContentResponse :=
  fun w =>
    match generate_content E prompt with
    | Returns r => (Return r, sent w prompt)
    | Raises msg => (Raise (Exception msg), sent w prompt)
    end.

(** ** Fixed texts *)

(** The prompt of lines 124-146 up to the document text. *)
Definition analysis_prompt_head : str :=
  unlines
    [ [];
      lit "        You are a legal document analyzer. Analyze this document and respond with ONLY valid JSON in the exact format specified.";
      [];
      lit "        Document Text:";
      lit "        " ].

(** The prompt of lines 124-146 after the document text. *)
Definition analysis_prompt_tail : str :=
  unlines
    [ [];
      [];
      lit "        Respond with valid JSON only (no markdown, no explanations):";
      lit "        {";
      litq "            ^summary^: ^Brief explanation of the document's purpose and main points^,";
      litq "            ^key_clauses^: [";
      litq "                {^clause^: ^Clause name^, ^explanation^: ^Simple explanation^, ^location^: ^Section reference^}";
      lit "            ],";
      litq "            ^obligations^: [";
      litq "                {^party^: ^Who^, ^obligation^: ^What they must do^, ^consequence^: ^Result of non-compliance^}";
      lit "            ],";
      litq "            ^risks^: [";
      litq "                {^type^: ^Financial^, ^description^: ^Risk description^, ^severity^: ^High^}";
      lit "            ],";
      litq "            ^unusual_terms^: [";
      litq "                {^term^: ^Term name^, ^explanation^: ^Why unusual^, ^recommendation^: ^What to do^}";
      lit "            ]";
      lit "        }";
      lit "        " ].

(** The chat prompt of lines 334-340 up to the document text. *)
Definition chat_prompt_head : str :=
  unlines
    [ lit "You are analyzing a legal document. Answer the following question about it:";
      [];
      lit "Document: " ].

(** The chat prompt between the document text and the question. *)
Definition chat_prompt_middle : str :=
  unlines [ []; []; lit "Question: " ].

(** The chat prompt after the question. *)
Definition chat_prompt_tail : str :=
  unlines
    [ [];
      [];
      lit "Please provide a clear and concise answer based on the document content." ].

(** The record returned when the reply is no JSON (lines 181-187). *)
Definition parse_fallback : DocumentAnalysis :=
  {| summary := lit "The document has been processed. The AI analysis is available through the chat feature.";
     key_clauses :=
       [[(lit "clause", lit "Document Processed");
         (lit "explanation", lit "Use the chat feature to ask about specific clauses");
         (lit "location", lit "Throughout document")]];
     obligations :=
       [[(lit "party", lit "Document parties");
         (lit "obligation", lit "Refer to original document");
         (lit "consequence", lit "Use chat for specific details")]];
     risks :=
       [[(lit "type", lit "General");
         (lit "description", lit "Use chat to identify specific risks");
         (lit "severity", lit "Medium")]];
     unusual_terms :=
       [[(lit "term", lit "Various");
         (lit "explanation", lit "Chat with AI to identify unusual terms");
         (lit "recommendation", lit "Review document carefully")]] |}.

(** The record returned when anything else in the [try] raises
    (lines 194-200). *)
Definition infra_fallback : DocumentAnalysis :=
  {| summary := lit "Document uploaded successfully. AI analysis encountered an issue, but you can still chat about the document.";
     key_clauses :=
       [[(lit "clause", lit "Upload Successful");
         (lit "explanation", lit "Document processed, use chat for analysis");
         (lit "location", lit "N/A")]];
     obligations :=
       [[(lit "party", lit "User");
         (lit "obligation", lit "Use chat feature for detailed analysis");
         (lit "consequence", lit "Limited automated analysis")]];
     risks :=
       [[(lit "type", lit "Technical");
         (lit "description", lit "AI analysis partially unavailable");
         (lit "severity", lit "Low")]];
     unusual_terms :=
       [[(lit "term", lit "Processing");
         (lit "explanation", lit "Use chat feature for detailed term analysis");
         (lit "recommendation", lit "Ask specific questions")]] |}.

Definition backticks : str := lit "```".
Definition backticks_json : str := lit "```json".

(** Lines 152-163: the reply text trimmed, the fences cut, trimmed again. *)
Definition clean_response (raw : str) : str :=
  let response_text := strip raw in
  let response_text :=
    if startswith response_text backticks_json
    then slice_from 7 response_text else response_text in
  let response_text :=
    if startswith response_text backticks
    then slice_from 3 response_text else response_text in
  let response_text :=
    if endswith response_text backticks
    then slice_drop_last 3 response_text else response_text in
  strip response_text.

(** [analysis_data.get(key, default)]: only a dictionary has [get]; on any
    other JSON value the attribute lookup raises [AttributeError] (its
    message, which names the value's type, is logged and dropped by the
    handler of line 189). *)
Definition py_get (analysis_data : json) (key : str) (default : json)
  : M json :=
  match analysis_data with
  | JObject members =>
      ret (match list_find (fun kv => kv.1 = key) members with
           | Some (_, (_, v)) => v
           | None => default
           end)
  | _ => raise (Exception (lit "object has no attribute 'get'"))
  end.

Section Backend.

Variable E : Env.

(** *** [extract_text_from_pdf] (lines 76-106) *)

(** The loop body of lines 86-93: one page appended to [text], or
    skipped when its extraction raises. *)
Definition add_page (text : str) (page : PageObject) : str :=
  match extract_text page with
  | Returns page_text => text ++ (page_text ++ newline)
  | Raises _ => text
  end.

(** The [try] body, lines 79-101. *)
Definition extract_body (file_content : bytes) : M str :=
  pdf_reader_pages ← external (PdfReader E file_content);
  let text := fold_left add_page pdf_reader_pages [] in
  let extracted_length := len (strip text) in
  if extracted_length =? 0 then
    raise (Exception (lit "No text could be extracted from the PDF. The file might be image-based or corrupted."))
  else ret (strip text).

(** [str(e)].  The handlers apply it to exceptions of the external
    libraries only; the [HTTPException] case (Starlette prints status
    and detail) is never reached by them. *)
Definition str_of_exn (e : exn) : str :=
  match e with
  | Exception msg => msg
  | HTTPException status detail => str_of_int status ++ lit ": " ++ detail
  end.

Definition extract_text_from_pdf (file_content : bytes) : M str :=
  try_except (extract_body file_content)
    (fun e => raise (HTTPException 400
                       (lit "Error extracting text from PDF: " ++ str_of_exn e))).

(** *** [analyze_document_with_gemini] (lines 108-200) *)

(** Lines 120-146: the text cut to the budget and set into the prompt. *)
Definition analysis_prompt (text : str) : str :=
  let limited_text := if len text >? 25000 then slice_to 25000 text else text in
  analysis_prompt_head ++ limited_text ++ analysis_prompt_tail.

(** The inner [try] of lines 165-187: the cleaned reply parsed and
    turned into a record; [json.JSONDecodeError] alone is caught here. *)
Definition parse_reply (response_text : str) : M DocumentAnalysis :=
  match json_loads E response_text with
  | Loaded analysis_data =>
      a1 ← py_get analysis_data (lit "summary")
             (JString (lit "Document analysis completed."));
      a2 ← py_get analysis_data (lit "key_clauses") (JArray []);
      a3 ← py_get analysis_data (lit "obligations") (JArray []);
      a4 ← py_get analysis_data (lit "risks") (JArray []);
      a5 ← py_get analysis_data (lit "unusual_terms") (JArray []);
      external (validate_DocumentAnalysis E a1 a2 a3 a4 a5)
  | JSONDecodeError _ => ret parse_fallback
  | LoadsError msg => raise (Exception msg)
  end.

(** The outer [try] body, lines 117-187. *)
Definition analyze_body (text : str) : M DocumentAnalysis :=
  external (GenerativeModel E (lit "gemini-1.5-flash"));;
  let prompt := analysis_prompt text in
  response ← model_generate_content E prompt;
  raw ← external (response_text response);
  let response_text := clean_response raw in
  parse_reply response_text.

Definition analyze_document_with_gemini (text : str) : M DocumentAnalysis :=
  if negb (truthy (GEMINI_API_KEY E)) then
    raise (HTTPException 500
             (lit "Gemini API key not configured. Please set GEMINI_API_KEY in your environment variables."))
  else
    try_except (analyze_body text) (fun e => ret infra_fallback).

(** *** [upload_document] (lines 202-285) *)

(** What the [try] body has bound once [doc_id] exists (line 243). *)
Record upload_locals : Type := {
  l_filename : str;
  l_file_size : Z;
  l_document_text : str;
  l_doc_id : str
}.

(** Lines 209-229, [# Validate file] and [# Check file size]: the file
    name, the payload and its size, or a rejection. *)
Definition upload_check_file (file : UploadFile) : M (str * bytes * Z) :=
  if negb (truthy_opt (file_filename file)) then
    raise (HTTPException 400 (lit "No file selected"))
  else
    let filename := default [] (file_filename file) in
    if negb (endswith (lower filename) (lit ".pdf")) then
      raise (HTTPException 400 (lit "Only PDF files are supported"))
    else
      content ← external (file_read file);
      let file_size := len content in
      if file_size =? 0 then
        raise (HTTPException 400 (lit "The uploaded file is empty"))
      else if file_size >? 10 * 1024 * 1024 then
        raise (HTTPException 400 (lit "File size must be less than 10MB"))
      else ret (filename, content, file_size).

(** Lines 231-243, [# Extract text from PDF] and [# Generate document ID]. *)
Definition upload_extract (checked : str * bytes * Z) : M upload_locals :=
  let '(filename, content, file_size) := checked in
  document_text ← extract_text_from_pdf content;
  if len (strip document_text) <? 50 then
    raise (HTTPException 400
             (lit "Document appears to contain insufficient text. Please ensure the PDF contains readable text (not just images)."))
  else
    t ← datetime_now E;
    let doc_id :=
      lit "doc_" ++ strftime_Ymd_HMS t ++ lit "_"
      ++ str_of_int (Z.abs (py_hash E (slice_to 1000 document_text))
                     mod 10000) in
    ret {| l_filename := filename;
           l_file_size := file_size;
           l_document_text := document_text;
           l_doc_id := doc_id |}.

(** Lines 209-243: everything before the document is stored. *)
Definition upload_validate (file : UploadFile) : M upload_locals :=
  checked ← upload_check_file file;
  upload_extract checked.

(** Lines 247-268: the document stored, then analysed. *)
Definition upload_store_and_analyze (l : upload_locals) : M DocumentResponse :=
  t ← datetime_now E;
  store ← get_store;
  put_store (<[l_doc_id l :=
                 {| doc_text := l_document_text l;
                    doc_filename := l_filename l;
                    doc_upload_time := isoformat t;
                    doc_file_size := l_file_size l |}]> store);;
  analysis ← analyze_document_with_gemini (l_document_text l);
  ret {| resp_document_id := l_doc_id l;
         resp_filename := l_filename l;
         resp_analysis := analysis;
         resp_text_length := len (l_document_text l) |}.

(** The two [except] clauses of lines 270-285.  [doc_id] is [Some d]
    when ['doc_id' in locals()] holds at the point of the raise. *)
Definition upload_except {A} (doc_id : option str) (e : exn) : M A :=
  match e with
  | HTTPException _ _ => raise e
  | Exception msg =>
      match doc_id with
      | Some d =>
          store ← get_store;
          if bool_decide (is_Some (store !! d))
          then put_store (delete d store) else ret tt
      | None => ret tt
      end;;
      raise (HTTPException 500
               (lit "An unexpected error occurred while processing your document. Please try again. Error: "
                ++ msg))
  end.

(** Both handlers end in a [raise], so splitting the [try] body where
    [doc_id] is bound changes no run: an exception of the first part is
    handled with [doc_id] unbound, one of the second with it bound. *)
Definition upload_document (file : UploadFile) : M DocumentResponse :=
  l ← try_except (upload_validate file) (upload_except None);
  try_except (upload_store_and_analyze l) (upload_except (Some (l_doc_id l))).

(** *** [chat_with_document] (lines 287-355) *)

(** [ChatResponse(response=..., timestamp=datetime.now().isoformat())] *)
Definition chat_response (text : str) : M ChatResponse :=
  t ← datetime_now E;
  ret {| response := text; timestamp := isoformat t |}.

(** Lines 334-340: the document text cut to the budget and set into the
    prompt with the question. *)
Definition chat_prompt (document_text message : str) : str :=
  chat_prompt_head
  ++ (if len document_text >? 25000
      then slice_to 25000 document_text else document_text)
  ++ chat_prompt_middle ++ message ++ chat_prompt_tail.

(** Lines 330-347: the model, the prompt and the call. *)
Definition chat_generate (chat_request : ChatMessage) (document_text : str)
  : M ChatResponse :=
  external (GenerativeModel E (lit "gemini-1.5-flash"));;
  let prompt := chat_prompt document_text (message chat_request) in
  response ← model_generate_content E prompt;
  raw ← external (response_text response);
  chat_response (strip raw).

(** The [try] body, lines 297-347. *)
Definition chat_body (chat_request : ChatMessage) : M ChatResponse :=
  if truthy_opt (document_id chat_request) then
    let id := default [] (document_id chat_request) in
    store ← get_store;
    if bool_decide (store = ∅) then
      chat_response (lit "The document storage system is not available. Please try uploading your document again.")
    else
      match store !! id with
      | None =>
          chat_response (lit "I couldn't find the document you're referring to. Please try uploading your document again.")
      | Some doc_data => chat_generate chat_request (doc_text doc_data)
      end
  else if truthy_opt (document_text chat_request) then
    chat_generate chat_request (default [] (document_text chat_request))
  else
    chat_response (lit "Please upload a document first before asking questions.").

Definition chat_with_document (chat_request : ChatMessage) : M ChatResponse :=
  if negb (truthy (GEMINI_API_KEY E)) then
    raise (HTTPException 500 (lit "Gemini API key not configured"))
  else
    try_except (chat_body chat_request)
      (fun e =>
         chat_response
           (lit "I encountered an error while processing your question. Please try again. Error: "
            ++ str_of_exn e)).

(** *** [get_document_info] (lines 357-370) *)

Definition get_document_info (document_id : str) : M DocumentInfo :=
  store ← get_store;
  match store !! document_id with
  | None => raise (HTTPException 404 (lit "Document not found"))
  | Some doc_info =>
      ret {| info_document_id := document_id;
             info_filename := doc_filename doc_info;
             info_upload_time := doc_upload_time doc_info;
             info_text_length := len (doc_text doc_info);
             info_text_preview :=
               if len (doc_text doc_info) >? 200
               then slice_to 200 (doc_text doc_info) ++ lit "..."
               else doc_text doc_info |}
  end.

End Backend.

(** ** Specification-side definitions *)

(** The text of a PDF as the specification words it: each page's
    extracted text followed by a newline, in page order, a page whose
    extraction raises being skipped. *)
Definition pages_text_spec (pages : list PageObject) : str :=
  concat (map (fun page =>
                 match extract_text page with
                 | Returns page_text => page_text ++ newline
                 | Raises _ => []
                 end) pages).

(** Fence stripping as the specification words it: a leading
    [```json], otherwise a leading [```], and a trailing [```] are cut
    from the trimmed reply, and the result is trimmed. *)
Definition strip_fences_spec (raw : str) : str :=
  let t := strip raw in
  let t :=
    if startswith t backticks_json then slice_from 7 t
    else if startswith t backticks then slice_from 3 t
    else t in
  let t := if endswith t backticks then slice_drop_last 3 t else t in
  strip t.

(** The uploads the handler must turn away with status 400: the file
    name is missing (absent or empty) or does not end in [.pdf] whatever
    the case of its letters, the payload has no byte or more than
    10,485,760 bytes, or the extracted text, trimmed, has fewer than 50
    characters. *)
Inductive rejected (E : Env) (file : UploadFile) (w : World) : Prop :=
  | no_filename :
      truthy_opt (file_filename file) = false -> rejected E file w
  | not_a_pdf_name name :
      file_filename file = Some name ->
      endswith (lower name) (lit ".pdf") = false -> rejected E file w
  | empty_payload content :
      file_read file = Returns content -> len content = 0 ->
      rejected E file w
  | payload_too_large content :
      file_read file = Returns content -> 10485760 < len content ->
      rejected E file w
  | too_little_text content text :
      file_read file = Returns content ->
      (extract_text_from_pdf E content w).1 = Return text ->
      len (strip text) < 50 -> rejected E file w.

(** The record lines 247-252 store for the locals [l], in a world [w]. *)
Definition stored_record (E : Env) (l : upload_locals) (w : World)
  : StoredDocument :=
  {| doc_text := l_document_text l;
     doc_filename := l_filename l;
     doc_upload_time := isoformat (now E (clock_reads w));
     doc_file_size := l_file_size l |}.

(** ** A sample environment, for running the handlers *)

Definition sample_page (t : string) : PageObject :=
  {| extract_text := Returns (lit t) |}.

(** A reader that tells its sample files apart by their first bytes: [%1]
    is a one-page file with little text, [%0] a file whose only page has
    no text, any other file starting with [%] has three pages, the second
    of which cannot be extracted; every other stream is no PDF. *)
Definition sample_PdfReader (file_content : bytes) : outcome (list PageObject) :=
  match file_content with
  | Byte.x25 :: Byte.x31 :: _ => Returns [sample_page "Short text."]
  | Byte.x25 :: Byte.x30 :: _ => Returns [sample_page "   "]
  | Byte.x25 :: _ =>
      Returns [sample_page "  This lease is made between the landlord and the tenant.";
               {| extract_text := Raises (lit "unreadable page") |};
               sample_page "Rent is due on the first day of each month. "]
  | _ => Raises (lit "EOF marker not found")
  end.

Definition sample_json_loads (s : str) : loads_result :=
  if decide (s = lit "{}") then Loaded (JObject [])
  else if decide (s = litq "{^summary^: ^A lease.^}")
       then Loaded (JObject [(lit "summary", JString (lit "A lease."))])
  else if decide (s = lit "[]") then Loaded (JArray [])
  else JSONDecodeError (lit "Expecting value").

Definition sample_entry (j : json) : option entry :=
  match j with
  | JObject members =>
      mapM (fun kv : str * json =>
              match kv.2 with
              | JString v => Some (kv.1, v)
              | _ => None
              end) members
  | _ => None
  end.

Definition sample_entries (j : json) : option (list entry) :=
  match j with
  | JArray items => mapM sample_entry items
  | _ => None
  end.

(** A strict validation: a string and four lists of string dictionaries. *)
Definition sample_validate (a1 a2 a3 a4 a5 : json) : outcome DocumentAnalysis :=
  match a1, sample_entries a2, sample_entries a3,
        sample_entries a4, sample_entries a5 with
  | JString s, Some k, Some o, Some r, Some u =>
      Returns {| summary := s; key_clauses := k; obligations := o;
                 risks := r; unusual_terms := u |}
  | _, _, _, _, _ => Raises (lit "validation error for DocumentAnalysis")
  end.

Definition sample_now (n : nat) : datetime :=
  {| strftime_Ymd_HMS := lit "20240101_12000" ++ str_of_int (Z.of_nat n);
     isoformat := lit "2024-01-01T12:00:0" ++ str_of_int (Z.of_nat n) |}.

(** The sample environment with a given API key and a given behaviour of
    the generation capability. *)
Definition sample_env (key : str) (reply : outcome GenerateContentResponse) : Env :=
  {| GEMINI_API_KEY := key;
     PdfReader := sample_PdfReader;
     GenerativeModel := fun _ => Returns tt;
     generate_content := fun _ => reply;
     json_loads := sample_json_loads;
     validate_DocumentAnalysis := sample_validate;
     py_hash := fun s => - (len s);
     now := sample_now |}.

Definition replies (t : string) : outcome GenerateContentResponse :=
  Returns {| response_text := Returns (lit t) |}.

Definition empty_world : World :=
  {| document_store := ∅; generation_calls := []; clock_reads := 0 |}.

(** Sample uploads. *)
Definition sample_pdf : bytes := [Byte.x25; Byte.x50; Byte.x44; Byte.x46].
Definition short_pdf : bytes := [Byte.x25; Byte.x31].
Definition image_pdf : bytes := [Byte.x25; Byte.x30].
Definition not_a_pdf : bytes := [Byte.x00; Byte.x01].

Definition upload_of (name : string) (content : bytes) : UploadFile :=
  {| file_filename := Some (lit name); file_read := Returns content |}.

(** An environment with an API key whose model answers with an empty
    JSON object, and one with no API key. *)
Definition env_ok : Env := sample_env (lit "key") (replies "{}").
Definition env_no_key : Env := sample_env [] (replies "{}").

(** A world that already holds one document. *)
Definition one_document_world : World :=
  {| document_store :=
       {[ lit "doc_20231231_235959_17" :=
            {| doc_text := lit "An older contract.";
               doc_filename := lit "old.pdf";
               doc_upload_time := lit "2023-12-31T23:59:59";
               doc_file_size := 1024 |} ]};
     generation_calls := [];
     clock_reads := 0 |}.

(** Unfolds the monad down to functions on worlds. *)
Ltac run_monad :=
  unfold mbind, M_bind, bind, try_except, external,
    get_store, put_store, ret, raise in *.

(** ** The status endpoints (lines 372-383) *)

(** The dictionary [health_check] returns.  The store keeps no insertion
    order here, so [list(document_store.keys())] is given as the set of
    its keys. *)
Record HealthStatus : Type := {
  health_status : str;
  gemini_configured : bool;
  documents_stored : Z;
  stored_document_ids : gset str
}.

Section Status.

Variable E : Env.

(** [root] (lines 372-374): the message and the status. *)
Definition root : M (str * str) :=
  ret (lit "AI Legal Document Explainer API", lit "running").

(** [health_check] (lines 376-383) *)
Definition health_check : M HealthStatus :=
  store ← get_store;
  ret {| health_status := lit "healthy";
         gemini_configured := truthy (GEMINI_API_KEY E);
         documents_stored := Z.of_nat (size store);
         stored_document_ids := dom store |}.

End Status.

(** ** Further specification-side definitions *)

(** A text with no character but white space. *)
Definition blank (s : str) : bool := forallb isspace s.

(** A page that yields some character that is no white space. *)
Definition page_has_text (page : PageObject) : Prop :=
  exists page_text,
    extract_text page = Returns page_text /\ blank page_text = false.

(** What every document put into the store by an upload satisfies: a
    trimmed text of at least 50 characters, a PDF file name, and a size
    between 1 and 10,485,760 bytes. *)
Definition stored_document_ok (doc : StoredDocument) : Prop :=
  strip (doc_text doc) = doc_text doc
  /\ 50 <= len (doc_text doc)
  /\ endswith (lower (doc_filename doc)) (lit ".pdf") = true
  /\ 0 < doc_file_size doc <= 10485760.

Definition store_ok (store : gmap str StoredDocument) : Prop :=
  forall id doc, store !! id = Some doc -> stored_document_ok doc.

(** The member of a JSON object under [key], or [default]: what
    [dict.get(key, default)] returns. *)
Definition member_or (members : list (str * json)) (key : str) (default : json)
  : json :=
  match list_find (fun kv => kv.1 = key) members with
  | Some (_, (_, v)) => v
  | None => default
  end.

(** The identifier line 243 makes for a text, in a world [w]. *)
Definition new_doc_id (E : Env) (w : World) (document_text : str) : str :=
  lit "doc_" ++ strftime_Ymd_HMS (now E (clock_reads w)) ++ lit "_"
  ++ str_of_int (Z.abs (py_hash E (slice_to 1000 document_text)) mod 10000).

(** The document a chat request is about, in a world [w]: the stored
    text under its non-empty [document_id], or else its non-empty
    [document_text]. *)
Inductive chat_document (chat_request : ChatMessage) (w : World) (text : str)
  : Prop :=
  | stored_text id doc :
      document_id chat_request = Some id ->
      truthy id = true ->
      document_store w !! id = Some doc ->
      doc_text doc = text ->
      chat_document chat_request w text
  | supplied_text :
      truthy_opt (document_id chat_request) = false ->
      document_text chat_request = Some text ->
      truthy text = true ->
      chat_document chat_request w text.

(** The reply of lines 352-355 to an exception with message [msg]. *)
Definition chat_error_text (msg : str) : str :=
  lit "I encountered an error while processing your question. Please try again. Error: "
  ++ msg.

(** The world in which lines 255-257 run the analysis: the clock read
    once more and the record of [l] in the store. *)
Definition stored_world (E : Env) (l : upload_locals) (w : World) : World :=
  {| document_store := <[l_doc_id l := stored_record E l w]> (document_store w);
     generation_calls := generation_calls w;
     clock_reads := S (clock_reads w) |}.

(** A reply wrapped in a code fence with the language tag [tag]. *)
Definition fenced (tag body : str) : str :=
  backticks ++ tag ++ newline ++ body ++ newline ++ backticks.

(** An environment whose clock stands still, so that two uploads fall
    into the same second, and whose reader takes the text from the
    payload. *)
Definition text_PdfReader (file_content : bytes) : outcome (list PageObject) :=
  Returns [{| extract_text := Returns (map ascii_of_byte file_content) |}].

Definition env_same_second : Env :=
  {| GEMINI_API_KEY := lit "key";
     PdfReader := text_PdfReader;
     GenerativeModel := fun _ => Returns tt;
     generate_content := fun _ => replies "{}";
     json_loads := sample_json_loads;
     validate_DocumentAnalysis := sample_validate;
     py_hash := fun s => len s;
     now := fun _ => sample_now 0 |}.

(** An environment whose model cannot be built. *)
Definition env_no_model : Env :=
  {| GEMINI_API_KEY := lit "key";
     PdfReader := sample_PdfReader;
     GenerativeModel := fun _ => Raises (lit "model not found");
     generate_content := fun _ => replies "{}";
     json_loads := sample_json_loads;
     validate_DocumentAnalysis := sample_validate;
     py_hash := fun s => - (len s);
     now := sample_now |}.

(** An environment whose model answers a question in prose. *)
Definition env_chat : Env :=
  sample_env (lit "key") (replies "  The tenant pays the rent.  ").

(** An environment whose model answers with a JSON object. *)
Definition env_summary : Env :=
  sample_env (lit "key")
    (Returns {| response_text := Returns (litq "{^summary^: ^A lease.^}") |}).

(** A chat request with a question and a text sent along. *)
Definition question_about (text : string) : ChatMessage :=
  {| message := lit "Who pays the rent?";
     document_id := None;
     document_text := Some (lit text) |}.

(** Sixty bytes of one letter: a payload [text_PdfReader] reads as text. *)
Definition letters (b : Byte.byte) : bytes := replicate 60 b.

(** The string functions stay folded under [simpl]. *)
Arguments lit : simpl never.
Arguments endswith : simpl never.
Arguments lower : simpl never.
Arguments strip : simpl never.

(** ** Facts about strings *)

Section StringFacts.

Implicit Types s t p q : str.

Lemma lstrip_app s t :
  lstrip (s ++ t) = if decide (lstrip s = []) then lstrip t else lstrip s ++ t.
Proof.
  induction s as [|c s IH]; simpl.
  - reflexivity.
  - destruct (isspace c); [exact IH|].
    destruct (decide (c :: s = [])); [discriminate|reflexivity].
Qed.

Lemma lstrip_idemp s : lstrip (lstrip s) = lstrip s.
Proof.
  induction s as [|c s IH]; simpl; [reflexivity|].
  destruct (isspace c) eqn:Hc; [exact IH|].
  simpl. rewrite Hc. reflexivity.
Qed.

Lemma rstrip_idemp s : rstrip (rstrip s) = rstrip s.
Proof.
  unfold rstrip. rewrite reverse_involutive, lstrip_idemp. reflexivity.
Qed.

Lemma rstrip_cons c s :
  rstrip (c :: s) =
    match rstrip s with
    | [] => if isspace c then [] else [c]
    | _ :: _ => c :: rstrip s
    end.
Proof.
  unfold rstrip. rewrite reverse_cons, lstrip_app.
  destruct (decide (lstrip (reverse s) = [])) as [Hnil|Hne].
  - rewrite Hnil. simpl. destruct (isspace c); reflexivity.
  - rewrite reverse_app. simpl.
    destruct (reverse (lstrip (reverse s))) as [|d r] eqn:Hr; [|reflexivity].
    apply (f_equal reverse) in Hr. rewrite reverse_involutive in Hr.
    contradiction.
Qed.

Lemma rstrip_lstrip_fixed s : rstrip s = s -> rstrip (lstrip s) = lstrip s.
Proof.
  induction s as [|c s IH]; intros Hfix; simpl; [reflexivity|].
  destruct (isspace c) eqn:Hc; [|exact Hfix].
  rewrite rstrip_cons, Hc in Hfix.
  destruct (rstrip s) as [|d r] eqn:Hr; [discriminate|].
  apply IH. congruence.
Qed.

(** A trimmed text is a fixed point of [strip]. *)
Lemma strip_idemp s : strip (strip s) = strip s.
Proof.
  unfold strip.
  rewrite (rstrip_lstrip_fixed (rstrip s)) by apply rstrip_idemp.
  apply lstrip_idemp.
Qed.

Lemma startswith_app s p q :
  startswith s (p ++ q) = startswith s p && startswith (drop (length p) s) q.
Proof.
  revert s. induction p as [|c p IH]; intros s; simpl.
  - reflexivity.
  - destruct s as [|d s]; [reflexivity|].
    destruct (decide (c = d)); [apply IH|reflexivity].
Qed.

Lemma len_nonneg {A} (l : list A) : 0 <= len l.
Proof. unfold len. lia. Qed.

Lemma slice_to_all n s : len s <= n -> slice_to n s = s.
Proof. unfold slice_to, len. intros H. apply take_ge. lia. Qed.

Lemma len_slice_to n s : 0 <= n -> len (slice_to n s) = Z.min n (len s).
Proof. unfold slice_to, len. intros H. rewrite length_take. lia. Qed.

End StringFacts.

(** ** Text extraction *)

Section ExtractionFacts.

Variable E : Env.

Lemma fold_add_page pages : forall text,
  fold_left add_page pages text = text ++ pages_text_spec pages.
Proof.
  induction pages as [|page pages IH]; intros text; simpl.
  - rewrite app_nil_r. reflexivity.
  - rewrite IH. unfold add_page, pages_text_spec. simpl.
    destruct (extract_text page) as [page_text|msg]; simpl.
    + rewrite <- !app_assoc. reflexivity.
    + reflexivity.
Qed.

Lemma extract_text_from_pdf_world file_content w :
  (extract_text_from_pdf E file_content w).2 = w.
Proof.
  unfold extract_text_from_pdf, extract_body. run_monad.
  destruct (PdfReader E file_content) as [pages|msg]; simpl; [|reflexivity].
  destruct (len (strip _) =? 0); reflexivity.
Qed.

Lemma extract_text_from_pdf_raises file_content w e :
  (extract_text_from_pdf E file_content w).1 = Raise e ->
  exists detail, e = HTTPException 400 detail.
Proof.
  unfold extract_text_from_pdf, extract_body. run_monad.
  destruct (PdfReader E file_content) as [pages|msg]; simpl.
  - destruct (len (strip _) =? 0); simpl; intros [= <-]; eauto.
  - intros [= <-]. eauto.
Qed.

(** C4: [extract_text_from_pdf] fails, with status 400, exactly when the
    byte stream is no valid PDF or the trimmed concatenation of the
    page texts is empty; otherwise it returns that trimmed
    concatenation, each extracted page text followed by a newline, in
    page order, pages whose extraction raises being skipped.  The
    world is left as it was. *)
Theorem extract_text_from_pdf_spec (file_content : bytes) (w : World) :
  (extract_text_from_pdf E file_content w).2 = w
  /\ ((exists e, (extract_text_from_pdf E file_content w).1 = Raise e)
      <-> ((exists msg, PdfReader E file_content = Raises msg)
           \/ (exists pages, PdfReader E file_content = Returns pages
                             /\ len (strip (pages_text_spec pages)) = 0)))
  /\ (forall e, (extract_text_from_pdf E file_content w).1 = Raise e ->
                exists detail, e = HTTPException 400 detail)
  /\ (forall pages, PdfReader E file_content = Returns pages ->
                    len (strip (pages_text_spec pages)) <> 0 ->
                    (extract_text_from_pdf E file_content w).1
                    = Return (strip (pages_text_spec pages))).
Proof.
  unfold extract_text_from_pdf, extract_body, try_except, external.
  unfold mbind, M_bind, bind, ret, raise.
  destruct (PdfReader E file_content) as [pages|msg]; simpl.
  - rewrite fold_add_page. simpl.
    destruct (len (strip (pages_text_spec pages)) =? 0) eqn:Hz; simpl.
    + apply Z.eqb_eq in Hz. repeat split.
      * intros _. right. exists pages. auto.
      * intros _. eauto.
      * intros e [= <-]. eauto.
      * intros pages' [= <-] Hne. contradiction.
    + apply Z.eqb_neq in Hz. repeat split.
      * intros [e He]. discriminate.
      * intros [[msg Hm]|[pages' [[= <-] Hl]]]; [discriminate|contradiction].
      * intros e He. discriminate.
      * intros pages' [= <-] _. reflexivity.
  - repeat split.
    + intros _. left. eauto.
    + intros _. eauto.
    + intros e [= <-]. eauto.
    + intros pages' Hp. discriminate.
Qed.

End ExtractionFacts.

(** ** The analysis *)

Lemma calls_not_extended (calls : list str) prompt : calls <> calls ++ [prompt].
Proof.
  intros H. apply (f_equal length) in H. rewrite length_app in H.
  simpl in H. lia.
Qed.

Section AnalysisFacts.

Variable E : Env.

Lemma parse_reply_world response_text w : (parse_reply E response_text w).2 = w.
Proof.
  unfold parse_reply.
  destruct (json_loads E response_text) as [data|msg|msg]; try reflexivity.
  destruct data; try reflexivity.
  run_monad. simpl.
  destruct (validate_DocumentAnalysis E _ _ _ _ _); reflexivity.
Qed.

(** The body of the [try], case by case. *)
Lemma analyze_body_cases text w :
  match GenerativeModel E (lit "gemini-1.5-flash") with
  | Raises msg => analyze_body E text w = (Raise (Exception msg), w)
  | Returns _ =>
      match generate_content E (analysis_prompt text) with
      | Raises msg =>
          analyze_body E text w
          = (Raise (Exception msg), sent w (analysis_prompt text))
      | Returns reply =>
          match response_text reply with
          | Raises msg =>
              analyze_body E text w
              = (Raise (Exception msg), sent w (analysis_prompt text))
          | Returns raw =>
              analyze_body E text w
              = ((parse_reply E (clean_response raw)
                    (sent w (analysis_prompt text))).1,
                 sent w (analysis_prompt text))
          end
      end
  end.
Proof.
  unfold analyze_body, model_generate_content.
  run_monad.
  destruct (GenerativeModel E _) as [[]|msg]; [|reflexivity].
  destruct (generate_content E _) as [reply|msg]; [|reflexivity].
  destruct (response_text reply) as [raw|msg]; [|reflexivity].
  rewrite (surjective_pairing (parse_reply _ _ _)) at 1.
  rewrite parse_reply_world. reflexivity.
Qed.

(** A handler that returns absorbs every exception. *)
Lemma try_except_returns {A} (m : M A) (fallback : A) w :
  exists a, (try_except m (fun _ => ret fallback) w).1 = Return a.
Proof.
  unfold try_except, ret. destruct (m w) as [[a|e] w']; simpl; eauto.
Qed.

(** The world after an analysis: untouched, or one prompt further. *)
Lemma analyze_world text w :
  (analyze_document_with_gemini E text w).2 = w
  \/ (analyze_document_with_gemini E text w).2 = sent w (analysis_prompt text).
Proof.
  unfold analyze_document_with_gemini.
  destruct (truthy (GEMINI_API_KEY E)); simpl; [|left; reflexivity].
  unfold try_except. pose proof (analyze_body_cases text w) as H.
  destruct (GenerativeModel E _) as [[]|msg]; [|rewrite H; left; reflexivity].
  destruct (generate_content E _) as [reply|msg];
    [|rewrite H; right; reflexivity].
  destruct (response_text reply) as [raw|msg]; rewrite H;
    [|right; reflexivity].
  right. destruct (parse_reply _ _ _).1; reflexivity.
Qed.

(** C1: the two-tier fallback.  Whenever a run of the analysis sends a
    prompt to the generation capability: if that call raises, the result
    is the fixed infra-failure record; if it answers with a text that
    [json.loads] rejects after fence stripping, the result is the fixed
    parse-failure record.  The first record's summary contains
    [AI analysis encountered an issue], the second's [chat feature], and
    the two records differ. *)
Theorem analyze_two_tier_fallback (text : str) (w : World) (prompt : str) :
  generation_calls (analyze_document_with_gemini E text w).2
  = generation_calls w ++ [prompt] ->
  (forall msg,
     generate_content E prompt = Raises msg ->
     (analyze_document_with_gemini E text w).1 = Return infra_fallback)
  /\ (forall reply raw msg,
        generate_content E prompt = Returns reply ->
        response_text reply = Returns raw ->
        json_loads E (clean_response raw) = JSONDecodeError msg ->
        (analyze_document_with_gemini E text w).1 = Return parse_fallback)
  /\ contains (summary infra_fallback)
       (lit "AI analysis encountered an issue") = true
  /\ contains (summary parse_fallback) (lit "chat feature") = true
  /\ infra_fallback <> parse_fallback.
Proof.
  intros Hcall.
  assert (Hp : prompt = analysis_prompt text
               /\ truthy (GEMINI_API_KEY E) = true
               /\ GenerativeModel E (lit "gemini-1.5-flash") = Returns tt).
  { revert Hcall. unfold analyze_document_with_gemini.
    destruct (truthy (GEMINI_API_KEY E)); simpl.
    - unfold try_except. pose proof (analyze_body_cases text w) as H.
      destruct (GenerativeModel E _) as [[]|m].
      + intros Hcall. split; [|auto].
        assert (Hw : generation_calls (analyze_body E text w).2
                     = generation_calls w ++ [analysis_prompt text]).
        { destruct (generate_content E _) as [reply|m];
            [destruct (response_text reply)|]; rewrite H; reflexivity. }
        destruct (analyze_body E text w) as [[a|e] w']; simpl in *;
          rewrite Hw in Hcall; apply app_inv_head in Hcall; congruence.
      + rewrite H. simpl. intros Hcall.
        exfalso. exact (calls_not_extended _ _ Hcall).
    - intros Hcall. exfalso. exact (calls_not_extended _ _ Hcall). }
  destruct Hp as (-> & Hkey & Hmodel).
  pose proof (analyze_body_cases text w) as H. rewrite Hmodel in H.
  unfold analyze_document_with_gemini, try_except. rewrite Hkey. simpl.
  repeat split.
  - intros msg Hraise. rewrite Hraise in H. rewrite H. reflexivity.
  - intros reply raw msg Hreply Hraw Hjson.
    rewrite Hreply, Hraw in H. rewrite H.
    unfold parse_reply. rewrite Hjson. reflexivity.
  - discriminate.
Qed.

Lemma analyze_never_raises_with_key text w :
  truthy (GEMINI_API_KEY E) = true ->
  exists analysis, (analyze_document_with_gemini E text w).1 = Return analysis.
Proof.
  intros Hkey. unfold analyze_document_with_gemini. rewrite Hkey. simpl.
  apply try_except_returns.
Qed.

(** C2, as amended: with the API key configured the analysis never
    raises; for every text, every world and every behaviour of the
    external libraries it returns a record, and the document store is
    left as it was. *)
Theorem analyze_never_fails_with_key (text : str) (w : World) :
  truthy (GEMINI_API_KEY E) = true ->
  (exists analysis,
     (analyze_document_with_gemini E text w).1 = Return analysis)
  /\ document_store (analyze_document_with_gemini E text w).2
     = document_store w.
Proof.
  intros Hkey. split.
  - exact (analyze_never_raises_with_key text w Hkey).
  - destruct (analyze_world text w) as [-> | ->]; reflexivity.
Qed.

End AnalysisFacts.

(** ** The upload *)

Section UploadFacts.

Variable E : Env.

Lemma upload_check_file_world file w : (upload_check_file file w).2 = w.
Proof.
  unfold upload_check_file. run_monad.
  destruct (truthy_opt (file_filename file)); simpl; [|reflexivity].
  destruct (endswith _ _); simpl; [|reflexivity].
  destruct (file_read file) as [content|msg]; simpl; [|reflexivity].
  destruct (len content =? 0); [reflexivity|].
  destruct (len content >? 10 * 1024 * 1024); reflexivity.
Qed.

(** What a file that passes lines 209-229 looks like. *)
Lemma upload_check_file_ok file w checked w' :
  upload_check_file file w = (Return checked, w') ->
  exists content,
    checked = (default [] (file_filename file), content, len content)
    /\ file_filename file = Some (default [] (file_filename file))
    /\ endswith (lower (default [] (file_filename file))) (lit ".pdf") = true
    /\ file_read file = Returns content
    /\ 0 < len content <= 10485760.
Proof.
  unfold upload_check_file. run_monad.
  destruct (file_filename file) as [name|]; simpl; [|discriminate].
  destruct (truthy name); simpl; [|discriminate].
  destruct (endswith _ _); simpl; [|discriminate].
  destruct (file_read file) as [content|msg]; simpl; [|discriminate].
  destruct (len content =? 0) eqn:Hz; [discriminate|].
  destruct (len content >? 10 * 1024 * 1024) eqn:Hm; [discriminate|].
  intros [= <- <-]. exists content.
  apply Z.eqb_neq in Hz. pose proof (len_nonneg content).
  repeat split; auto; lia.
Qed.

(** A rejection by lines 209-229 is a 400, or the exception of
    [file.read()]. *)
Lemma upload_check_file_raises file w e w' :
  upload_check_file file w = (Raise e, w') ->
  (exists detail, e = HTTPException 400 detail)
  \/ (exists msg, e = Exception msg /\ file_read file = Raises msg).
Proof.
  unfold upload_check_file. run_monad.
  destruct (truthy_opt (file_filename file)); simpl;
    [|intros [= <- <-]; eauto].
  destruct (endswith _ _); simpl; [|intros [= <- <-]; eauto].
  destruct (file_read file) as [content|msg]; simpl;
    [|intros [= <- <-]; eauto].
  destruct (len content =? 0); [intros [= <- <-]; eauto|].
  destruct (len content >? 10 * 1024 * 1024); [intros [= <- <-]; eauto|].
  discriminate.
Qed.

Lemma upload_extract_raises checked w e w' :
  upload_extract E checked w = (Raise e, w') ->
  w' = w /\ exists detail, e = HTTPException 400 detail.
Proof.
  destruct checked as [[filename content] file_size].
  unfold upload_extract, datetime_now. run_monad.
  pose proof (extract_text_from_pdf_world E content w) as Hw.
  pose proof (extract_text_from_pdf_raises E content w) as Hr.
  destruct (extract_text_from_pdf E content w) as [[text|e0] w0];
    simpl in *; subst w0.
  - destruct (len (strip text) <? 50); [|discriminate].
    intros [= <- <-]. eauto.
  - intros [= <- <-]. split; [reflexivity|]. apply Hr. reflexivity.
Qed.

Lemma upload_extract_ok filename content file_size w l w' :
  upload_extract E (filename, content, file_size) w = (Return l, w') ->
  (extract_text_from_pdf E content w).1 = Return (l_document_text l)
  /\ 50 <= len (strip (l_document_text l))
  /\ l_filename l = filename
  /\ l_file_size l = file_size
  /\ document_store w' = document_store w
  /\ generation_calls w' = generation_calls w.
Proof.
  unfold upload_extract, datetime_now. run_monad.
  pose proof (extract_text_from_pdf_world E content w) as Hw.
  destruct (extract_text_from_pdf E content w) as [[text|e0] w0];
    simpl in *; subst w0; [|discriminate].
  destruct (len (strip text) <? 50) eqn:Hlen; [discriminate|].
  intros [= <- <-]. simpl. apply Z.ltb_ge in Hlen. auto 10.
Qed.

(** Everything before the store: a failure leaves the world as it was. *)
Lemma upload_validate_raises file w e w' :
  upload_validate E file w = (Raise e, w') ->
  w' = w
  /\ ((exists detail, e = HTTPException 400 detail)
      \/ (exists msg, e = Exception msg /\ file_read file = Raises msg)).
Proof.
  unfold upload_validate. unfold mbind, M_bind, bind.
  pose proof (upload_check_file_world file w) as Hw.
  destruct (upload_check_file file w) as [[checked|e0] w0] eqn:Hc;
    simpl in Hw; subst w0.
  - intros H. apply upload_extract_raises in H as [-> [detail ->]]. eauto.
  - intros [= <- <-]. split; [reflexivity|].
    exact (upload_check_file_raises _ _ _ _ Hc).
Qed.

Lemma upload_validate_ok file w l w' :
  upload_validate E file w = (Return l, w') ->
  exists content,
    file_filename file = Some (l_filename l)
    /\ endswith (lower (l_filename l)) (lit ".pdf") = true
    /\ file_read file = Returns content
    /\ l_file_size l = len content
    /\ 0 < len content <= 10485760
    /\ (extract_text_from_pdf E content w).1 = Return (l_document_text l)
    /\ 50 <= len (strip (l_document_text l))
    /\ document_store w' = document_store w
    /\ generation_calls w' = generation_calls w.
Proof.
  unfold upload_validate. unfold mbind, M_bind, bind.
  pose proof (upload_check_file_world file w) as Hw.
  destruct (upload_check_file file w) as [[checked|e0] w0] eqn:Hc;
    simpl in Hw; subst w0; [|discriminate].
  apply upload_check_file_ok in Hc
    as (content & -> & Hname & Hpdf & Hread & Hsize).
  intros H.
  apply upload_extract_ok in H as (Hx & Hlen & Hf & Hs & Hst & Hg).
  exists content. rewrite Hf. auto 10.
Qed.

Lemma analyze_store text w :
  document_store (analyze_document_with_gemini E text w).2 = document_store w.
Proof. destruct (analyze_world E text w) as [-> | ->]; reflexivity. Qed.

(** Lines 247-268 from a world [w]: the record is in the store
    afterwards, whatever the analysis does, and the outcome is the
    outcome of the analysis. *)
Lemma upload_store_and_analyze_run l w :
  exists w',
    document_store w'
    = <[l_doc_id l := stored_record E l w]> (document_store w)
    /\ ((exists analysis,
           upload_store_and_analyze E l w
           = (Return {| resp_document_id := l_doc_id l;
                        resp_filename := l_filename l;
                        resp_analysis := analysis;
                        resp_text_length := len (l_document_text l) |}, w')
           /\ truthy (GEMINI_API_KEY E) = true)
        \/ (exists detail,
              upload_store_and_analyze E l w
              = (Raise (HTTPException 500 detail), w')
              /\ truthy (GEMINI_API_KEY E) = false)).
Proof.
  unfold upload_store_and_analyze, datetime_now. run_monad. simpl.
  match goal with
  | |- context [analyze_document_with_gemini E ?t ?w0] =>
      pose proof (analyze_store t w0) as Hst;
      pose proof (analyze_never_raises_with_key E t w0) as Hkey;
      destruct (analyze_document_with_gemini E t w0) as [[a|e] w'] eqn:Ha
  end; simpl in *; exists w'; (split; [exact Hst|]).
  - left. exists a. split; [reflexivity|].
    destruct (truthy (GEMINI_API_KEY E)) eqn:Hk; [reflexivity|].
    unfold analyze_document_with_gemini in Ha. rewrite Hk in Ha.
    discriminate.
  - right. destruct (truthy (GEMINI_API_KEY E)) eqn:Hk.
    + destruct (Hkey eq_refl) as [a Hr]. discriminate.
    + unfold analyze_document_with_gemini in Ha. rewrite Hk in Ha.
      simpl in Ha. unfold raise in Ha. injection Ha as <- <-. eauto.
Qed.

(** A 400 raised before the store is what the upload reports. *)
Lemma upload_document_rejection file w status detail w' :
  upload_validate E file w = (Raise (HTTPException status detail), w') ->
  upload_document E file w = (Raise (HTTPException status detail), w').
Proof.
  intros H. unfold upload_document. run_monad. rewrite H. reflexivity.
Qed.

(** Once the validation has passed, the upload is lines 247-268 under the
    handlers of lines 270-285. *)
Lemma upload_document_validated file w l w1 :
  upload_validate E file w = (Return l, w1) ->
  upload_document E file w
  = try_except (upload_store_and_analyze E l)
      (upload_except (Some (l_doc_id l))) w1.
Proof.
  intros H. unfold upload_document.
  unfold mbind, M_bind, bind. unfold try_except at 1. rewrite H. reflexivity.
Qed.

(** C5: an upload whose file name is missing or does not end in [.pdf]
    (letter case apart), whose payload is empty or larger than 10,485,760
    bytes, or whose extracted text has fewer than 50 characters once
    trimmed, is answered with status 400 in the world as it was: nothing
    is stored and no prompt is sent.  A payload of exactly 10,485,760
    bytes under a valid name passes the checks of lines 209-229, and the
    upload goes on to the extraction of line 233. *)
Theorem upload_rejects_bad_input (file : UploadFile) (w : World) :
  (rejected E file w ->
   exists detail,
     upload_document E file w = (Raise (HTTPException 400 detail), w))
  /\ (forall name content,
        file_filename file = Some name ->
        truthy name = true ->
        endswith (lower name) (lit ".pdf") = true ->
        file_read file = Returns content ->
        len content = 10485760 ->
        upload_check_file file w = (Return (name, content, 10485760), w)
        /\ upload_validate E file w
           = upload_extract E (name, content, 10485760) w).
Proof.
  split.
  - intros Hrej.
    assert (Hval : exists detail,
               upload_validate E file w = (Raise (HTTPException 400 detail), w)).
    { destruct Hrej as [Hname|name Hname Hpdf|content Hread Hlen
                        |content Hread Hlen|content text Hread Htext Hlen].
      - unfold upload_validate, upload_check_file. run_monad.
        rewrite Hname. simpl. eauto.
      - unfold upload_validate, upload_check_file. run_monad.
        rewrite Hname. simpl.
        destruct (truthy name); simpl; [|eauto].
        rewrite Hpdf. simpl. eauto.
      - destruct (upload_validate E file w) as [[l|e] w'] eqn:Hv.
        + apply upload_validate_ok in Hv as (c & _ & _ & Hr & _ & Hs & _).
          rewrite Hread in Hr. injection Hr as <-. lia.
        + apply upload_validate_raises in Hv
            as [-> [[detail ->]|(msg & -> & Hr)]]; [eauto|congruence].
      - destruct (upload_validate E file w) as [[l|e] w'] eqn:Hv.
        + apply upload_validate_ok in Hv as (c & _ & _ & Hr & _ & Hs & _).
          rewrite Hread in Hr. injection Hr as <-. lia.
        + apply upload_validate_raises in Hv
            as [-> [[detail ->]|(msg & -> & Hr)]]; [eauto|congruence].
      - destruct (upload_validate E file w) as [[l|e] w'] eqn:Hv.
        + apply upload_validate_ok in Hv
            as (c & _ & _ & Hr & _ & _ & Hx & Hl & _).
          rewrite Hread in Hr. injection Hr as <-.
          rewrite Htext in Hx. injection Hx as ->. lia.
        + apply upload_validate_raises in Hv
            as [-> [[detail ->]|(msg & -> & Hr)]]; [eauto|congruence]. }
    destruct Hval as [detail Hval]. exists detail.
    exact (upload_document_rejection _ _ _ _ _ Hval).
  - intros name content Hname Htruthy Hpdf Hread Hlen.
    assert (Hcheck : upload_check_file file w
                     = (Return (name, content, 10485760), w)).
    { unfold upload_check_file. run_monad.
      rewrite Hname. simpl. rewrite Htruthy, Hpdf, Hread. simpl.
      rewrite Hlen. reflexivity. }
    split; [exact Hcheck|].
    unfold upload_validate, mbind, M_bind, bind. rewrite Hcheck. reflexivity.
Qed.

(** C6: after a successful upload, [get_document_info] on the returned
    id finds the stored document: its file name is the uploaded one, its
    text is the extracted text, [text_length] is the length of that
    text, and [text_preview] is its first 200 characters followed by
    [...] when it has more than 200 characters, the whole text
    otherwise. *)
Theorem upload_then_get_document_info
    (file : UploadFile) (w : World) (resp : DocumentResponse) (w' : World) :
  upload_document E file w = (Return resp, w') ->
  exists doc content,
    document_store w' !! resp_document_id resp = Some doc
    /\ file_filename file = Some (doc_filename doc)
    /\ file_read file = Returns content
    /\ (extract_text_from_pdf E content w).1 = Return (doc_text doc)
    /\ get_document_info (resp_document_id resp) w'
       = (Return {| info_document_id := resp_document_id resp;
                    info_filename := doc_filename doc;
                    info_upload_time := doc_upload_time doc;
                    info_text_length := len (doc_text doc);
                    info_text_preview :=
                      if 200 <? len (doc_text doc)
                      then take 200 (doc_text doc) ++ lit "..."
                      else doc_text doc |}, w').
Proof.
  intros Hup.
  destruct (upload_validate E file w) as [[l|e] w1] eqn:Hv.
  - rewrite (upload_document_validated _ _ _ _ Hv) in Hup.
    pose proof (upload_validate_ok _ _ _ _ Hv)
      as (content & Hname & _ & Hread & _ & _ & Hx & _).
    destruct (upload_store_and_analyze_run l w1)
      as (w2 & Hst & [(a & Hrun & _)|(detail & Hrun & _)]);
      unfold try_except in Hup; rewrite Hrun in Hup.
    + injection Hup as <- <-. simpl.
      exists (stored_record E l w1), content.
      assert (Hlook : document_store w2 !! l_doc_id l
                      = Some (stored_record E l w1))
        by (rewrite Hst; apply lookup_insert_eq).
      repeat split; auto.
      unfold get_document_info. run_monad. rewrite Hlook. simpl.
      rewrite Z.gtb_ltb. reflexivity.
    + discriminate.
  - unfold upload_document, upload_except in Hup. run_monad.
    rewrite Hv in Hup. destruct e; discriminate.
Qed.

(** C3, on the code as it is: with no API key configured, an upload that
    passes validation is answered with status 500 by the analysis after
    the document was stored, and the stored document stays in the store:
    [except HTTPException: raise] (lines 270-272) re-raises without the
    clean-up of lines 277-280. *)
Theorem upload_failure_leaves_document
    (file : UploadFile) (w : World) (l : upload_locals) (w1 : World) :
  truthy (GEMINI_API_KEY E) = false ->
  upload_validate E file w = (Return l, w1) ->
  exists detail w',
    upload_document E file w = (Raise (HTTPException 500 detail), w')
    /\ document_store w' !! l_doc_id l = Some (stored_record E l w1).
Proof.
  intros Hkey Hv.
  rewrite (upload_document_validated _ _ _ _ Hv).
  destruct (upload_store_and_analyze_run l w1)
    as (w2 & Hst & [(a & _ & Hk)|(detail & Hrun & _)]); [congruence|].
  exists detail, w2. unfold try_except. rewrite Hrun. simpl.
  split; [reflexivity|]. rewrite Hst. apply lookup_insert_eq.
Qed.

End UploadFacts.

(** ** Fence stripping *)

(** C8, as amended: the reply is trimmed; a leading [```json] is cut, and
    then a leading [```] is cut from what is left, whether or not the
    first cut was made; a trailing [```] is cut; the result is trimmed.
    On every reply whose trimmed text does not begin with [```json```]
    this is the rule "a leading [```json], otherwise a leading [```]";
    a reply that does begin so loses both fences.  A reply with no fence
    at either end is parsed as its trimmed text. *)
Theorem clean_response_fences (raw : str) :
  (startswith (strip raw) (backticks_json ++ backticks) = false ->
   clean_response raw = strip_fences_spec raw)
  /\ (startswith (strip raw) (backticks_json ++ backticks) = true ->
      clean_response raw
      = strip (let t := slice_from 10 (strip raw) in
               if endswith t backticks then slice_drop_last 3 t else t))
  /\ (startswith (strip raw) backticks = false ->
      endswith (strip raw) backticks = false ->
      clean_response raw = strip raw).
Proof.
  unfold clean_response, strip_fences_spec.
  rewrite startswith_app. change (length backticks_json) with 7%nat.
  repeat split.
  - intros H. destruct (startswith (strip raw) backticks_json) eqn:Hj.
    + apply andb_false_iff in H as [H|H]; [discriminate|].
      change (drop 7 (strip raw)) with (slice_from 7 (strip raw)) in H.
      rewrite H. reflexivity.
    + reflexivity.
  - intros H. apply andb_true_iff in H as [Hj Hb]. rewrite Hj.
    change (drop 7 (strip raw)) with (slice_from 7 (strip raw)) in Hb.
    rewrite Hb. unfold slice_from. rewrite drop_drop. reflexivity.
  - intros Hs He.
    assert (Hj : startswith (strip raw) backticks_json = false).
    { change backticks_json with (backticks ++ lit "json").
      rewrite startswith_app, Hs. reflexivity. }
    rewrite Hj, Hs, He. apply strip_idemp.
Qed.

(** ** The chat *)

Section ChatFacts.

Variable E : Env.

(** Lines 330-347 send one prompt, unless the model cannot be built. *)
Lemma chat_generate_calls chat_request document_text w :
  match GenerativeModel E (lit "gemini-1.5-flash") with
  | Returns _ =>
      generation_calls (chat_generate E chat_request document_text w).2
      = generation_calls w
        ++ [chat_prompt document_text (message chat_request)]
  | Raises _ =>
      generation_calls (chat_generate E chat_request document_text w).2
      = generation_calls w
  end.
Proof.
  unfold chat_generate, model_generate_content, chat_response, datetime_now.
  run_monad.
  destruct (GenerativeModel E _) as [[]|msg]; [|reflexivity].
  destruct (generate_content E _) as [reply|msg]; [|reflexivity].
  destruct (response_text reply) as [raw|msg]; reflexivity.
Qed.

(** The handler of lines 349-355 sends nothing. *)
Lemma chat_try_calls (m : M ChatResponse) w :
  generation_calls
    (try_except m
       (fun e =>
          chat_response E
            (lit "I encountered an error while processing your question. Please try again. Error: "
             ++ str_of_exn e)) w).2
  = generation_calls (m w).2.
Proof.
  unfold try_except. destruct (m w) as [[a|e] w']; reflexivity.
Qed.

(** The [try] body of the chat sends at most one prompt, built by
    [chat_prompt] from some document text and the question. *)
Lemma chat_body_calls chat_request w :
  generation_calls (chat_body E chat_request w).2 = generation_calls w
  \/ exists document_text,
       generation_calls (chat_body E chat_request w).2
       = generation_calls w
         ++ [chat_prompt document_text (message chat_request)].
Proof.
  assert (Hgen : forall t,
             generation_calls (chat_generate E chat_request t w).2
             = generation_calls w
             \/ exists document_text,
                  generation_calls (chat_generate E chat_request t w).2
                  = generation_calls w
                    ++ [chat_prompt document_text (message chat_request)]).
  { intros t. pose proof (chat_generate_calls chat_request t w) as H.
    destruct (GenerativeModel E _); eauto. }
  unfold chat_body. run_monad.
  destruct (truthy_opt (document_id chat_request)).
  - simpl. destruct (bool_decide (document_store w = ∅)); [left; reflexivity|].
    destruct (document_store w !! _) as [doc|]; [apply Hgen|left; reflexivity].
  - destruct (truthy_opt (document_text chat_request));
      [apply Hgen|left; reflexivity].
Qed.

(** The chat with a document text supplied in the request. *)
Lemma chat_with_supplied_text chat_request text w :
  truthy (GEMINI_API_KEY E) = true ->
  document_id chat_request = None ->
  document_text chat_request = Some text ->
  truthy text = true ->
  chat_with_document E chat_request w
  = try_except (chat_generate E chat_request text)
      (fun e =>
         chat_response E
           (lit "I encountered an error while processing your question. Please try again. Error: "
            ++ str_of_exn e)) w.
Proof.
  intros Hkey Hid Htext Ht.
  unfold chat_with_document, chat_body, try_except.
  rewrite Hkey, Hid, Htext. simpl. rewrite Ht. reflexivity.
Qed.

(** The chat about a stored document. *)
Lemma chat_with_stored_document chat_request id doc w :
  truthy (GEMINI_API_KEY E) = true ->
  document_id chat_request = Some id ->
  truthy id = true ->
  document_store w !! id = Some doc ->
  chat_with_document E chat_request w
  = try_except (chat_generate E chat_request (doc_text doc))
      (fun e =>
         chat_response E
           (lit "I encountered an error while processing your question. Please try again. Error: "
            ++ str_of_exn e)) w.
Proof.
  intros Hkey Hid Ht Hdoc.
  unfold chat_with_document, chat_body, try_except. run_monad.
  rewrite Hkey, Hid. simpl. rewrite Ht.
  rewrite bool_decide_eq_false_2.
  - rewrite Hdoc. reflexivity.
  - intros Hempty. rewrite Hempty, lookup_empty in Hdoc. discriminate.
Qed.

(** C9: both prompts embed [slice_to 25000 text], the first 25,000
    characters of the document text: it is a prefix of the text of at
    most 25,000 characters, equal to the text when the text has at most
    25,000 characters and of exactly 25,000 characters otherwise.  The
    analysis sends no prompt but [analysis_prompt text], the chat none but
    a [chat_prompt] of the document text and the question, and both send
    it once the API key is configured and the model is built. *)
Theorem prompt_truncation_budget (text : str) :
  let embedded := slice_to 25000 text in
  (len embedded <= 25000 /\ text = embedded ++ slice_from 25000 text)
  /\ (len text <= 25000 -> embedded = text)
  /\ (25000 < len text -> len embedded = 25000)
  /\ analysis_prompt text
     = analysis_prompt_head ++ embedded ++ analysis_prompt_tail
  /\ (forall message,
        chat_prompt text message
        = chat_prompt_head ++ embedded ++ chat_prompt_middle
          ++ message ++ chat_prompt_tail)
  /\ (forall w,
        generation_calls (analyze_document_with_gemini E text w).2
        = generation_calls w
        \/ generation_calls (analyze_document_with_gemini E text w).2
           = generation_calls w ++ [analysis_prompt text])
  /\ (forall w,
        truthy (GEMINI_API_KEY E) = true ->
        GenerativeModel E (lit "gemini-1.5-flash") = Returns tt ->
        generation_calls (analyze_document_with_gemini E text w).2
        = generation_calls w ++ [analysis_prompt text])
  /\ (forall chat_request w,
        generation_calls (chat_with_document E chat_request w).2
        = generation_calls w
        \/ exists document_text,
             generation_calls (chat_with_document E chat_request w).2
             = generation_calls w
               ++ [chat_prompt document_text (message chat_request)])
  /\ (forall chat_request w,
        truthy (GEMINI_API_KEY E) = true ->
        GenerativeModel E (lit "gemini-1.5-flash") = Returns tt ->
        document_id chat_request = None ->
        document_text chat_request = Some text ->
        truthy text = true ->
        generation_calls (chat_with_document E chat_request w).2
        = generation_calls w ++ [chat_prompt text (message chat_request)])
  /\ (forall chat_request w id doc,
        truthy (GEMINI_API_KEY E) = true ->
        GenerativeModel E (lit "gemini-1.5-flash") = Returns tt ->
        document_id chat_request = Some id ->
        truthy id = true ->
        document_store w !! id = Some doc ->
        doc_text doc = text ->
        generation_calls (chat_with_document E chat_request w).2
        = generation_calls w ++ [chat_prompt text (message chat_request)]).
Proof.
  assert (Hlimit : (if len text >? 25000 then slice_to 25000 text else text)
                   = slice_to 25000 text).
  { destruct (len text >? 25000) eqn:Hlen; [reflexivity|].
    symmetry. apply slice_to_all. lia. }
  cbv zeta. split; [split|].
  - rewrite len_slice_to; lia.
  - unfold slice_to, slice_from. symmetry. apply take_drop.
  - split; [intros Hlen; apply slice_to_all; exact Hlen|].
    split; [intros Hlen; rewrite len_slice_to; lia|].
    split; [unfold analysis_prompt; rewrite Hlimit; reflexivity|].
    split; [intros message; unfold chat_prompt; rewrite Hlimit; reflexivity|].
    split.
    { intros w. destruct (analyze_world E text w) as [-> | ->]; auto. }
    split.
    { intros w Hkey Hmodel.
      unfold analyze_document_with_gemini, try_except. rewrite Hkey. simpl.
      pose proof (analyze_body_cases E text w) as H. rewrite Hmodel in H.
      destruct (generate_content E _) as [reply|msg];
        [destruct (response_text reply) as [raw|msg]|]; rewrite H;
        try reflexivity.
      destruct (parse_reply _ _ _).1; reflexivity. }
    split.
    { intros chat_request w. unfold chat_with_document.
      destruct (truthy (GEMINI_API_KEY E)); simpl; [|left; reflexivity].
      rewrite chat_try_calls. apply chat_body_calls. }
    split.
    { intros chat_request w Hkey Hmodel Hid Htext Ht.
      rewrite (chat_with_supplied_text _ _ _ Hkey Hid Htext Ht).
      rewrite chat_try_calls.
      pose proof (chat_generate_calls chat_request text w) as H.
      rewrite Hmodel in H. exact H. }
    intros chat_request w id doc Hkey Hmodel Hid Ht Hdoc <-.
    rewrite (chat_with_stored_document _ _ _ _ Hkey Hid Ht Hdoc).
    rewrite chat_try_calls.
    pose proof (chat_generate_calls chat_request (doc_text doc) w) as H.
    rewrite Hmodel in H. exact H.
Qed.

(** C7, as amended: with the API key configured, a chat request whose
    [document_id] is a non-empty string that is no key of the store is
    answered, with no prompt sent, by a [ChatResponse] (status 200): when
    the store holds some document the reply says the document could not
    be found; when the store holds none it says the document storage
    system is not available. *)
Theorem chat_unknown_document
    (chat_request : ChatMessage) (w : World) (id : str) :
  truthy (GEMINI_API_KEY E) = true ->
  document_id chat_request = Some id ->
  truthy id = true ->
  document_store w !! id = None ->
  (document_store w <> ∅ ->
   chat_with_document E chat_request w
   = (Return {| response := lit "I couldn't find the document you're referring to. Please try uploading your document again.";
                timestamp := isoformat (now E (clock_reads w)) |},
      ticked w))
  /\ (document_store w = ∅ ->
      chat_with_document E chat_request w
      = (Return {| response := lit "The document storage system is not available. Please try uploading your document again.";
                   timestamp := isoformat (now E (clock_reads w)) |},
         ticked w))
  /\ generation_calls (chat_with_document E chat_request w).2
     = generation_calls w.
Proof.
  intros Hkey Hid Ht Hnone.
  unfold chat_with_document, chat_body, try_except. run_monad.
  rewrite Hkey, Hid. simpl. rewrite Ht.
  destruct (bool_decide (document_store w = ∅)) eqn:Hempty.
  - apply bool_decide_eq_true in Hempty.
    split; [contradiction|]. split; [intros _|]; reflexivity.
  - apply bool_decide_eq_false in Hempty. rewrite Hnone.
    split; [intros _; reflexivity|]. split; [contradiction|reflexivity].
Qed.

(** C10, as amended: a chat request with no [document_id] and an empty
    [document_text] is treated exactly as the same request with no
    [document_text] at all, and sends no prompt; with the API key
    configured the answer is the [ChatResponse] (status 200) asking to
    upload a document first, with no key it is the status 500 of
    lines 292-294. *)
Theorem chat_empty_document_text (chat_request : ChatMessage) (w : World) :
  document_id chat_request = None ->
  document_text chat_request = Some [] ->
  chat_with_document E chat_request w
  = chat_with_document E
      {| message := message chat_request;
         document_id := None;
         document_text := None |} w
  /\ generation_calls (chat_with_document E chat_request w).2
     = generation_calls w
  /\ (truthy (GEMINI_API_KEY E) = true ->
      chat_with_document E chat_request w
      = (Return {| response := lit "Please upload a document first before asking questions.";
                   timestamp := isoformat (now E (clock_reads w)) |},
         ticked w))
  /\ (truthy (GEMINI_API_KEY E) = false ->
      chat_with_document E chat_request w
      = (Raise (HTTPException 500 (lit "Gemini API key not configured")), w)).
Proof.
  intros Hid Htext.
  unfold chat_with_document, chat_body, try_except. run_monad.
  rewrite Hid, Htext. simpl.
  destruct (truthy (GEMINI_API_KEY E)); simpl; repeat split;
    try reflexivity; discriminate.
Qed.

End ChatFacts.

(** ** Runs on the sample environment *)

(** The sibling handler of lines 273-285 does roll back: entered with
    [doc_id] bound and stored, it deletes the entry before raising. *)
Lemma upload_except_rolls_back (d msg : str) (w : World) :
  is_Some (document_store w !! d) ->
  exists detail w',
    upload_except (A := DocumentResponse) (Some d) (Exception msg) w
    = (Raise (HTTPException 500 detail), w')
    /\ document_store w' = delete d (document_store w).
Proof.
  intros Hin. unfold upload_except. run_monad.
  rewrite bool_decide_eq_true_2 by exact Hin. simpl. eauto.
Qed.

(** C1 on two runs: the model raises; the model answers with prose. *)
Lemma analyze_two_tier_fallback_witness :
  (analyze_document_with_gemini
     (sample_env (lit "key") (Raises (lit "429 quota exceeded")))
     (lit "Lease text") empty_world).1 = Return infra_fallback
  /\ (analyze_document_with_gemini
        (sample_env (lit "key") (replies "Sorry, I cannot help."))
        (lit "Lease text") empty_world).1 = Return parse_fallback.
Proof.
  split.
  - refine (proj1 (analyze_two_tier_fallback
                     (sample_env (lit "key") (Raises (lit "429 quota exceeded")))
                     (lit "Lease text") empty_world
                     (analysis_prompt (lit "Lease text")) _) _ _);
      vm_compute; reflexivity.
  - refine (proj1 (proj2 (analyze_two_tier_fallback
                     (sample_env (lit "key") (replies "Sorry, I cannot help."))
                     (lit "Lease text") empty_world
                     (analysis_prompt (lit "Lease text")) _))
              {| response_text := Returns (lit "Sorry, I cannot help.") |}
              (lit "Sorry, I cannot help.") (lit "Expecting value") _ _ _);
      vm_compute; reflexivity.
Defined.

(** C2 as stated fails: with no API key the analysis raises. *)
Lemma analyze_raises_without_key :
  analyze_document_with_gemini env_no_key (lit "Lease text") empty_world
  = (Raise (HTTPException 500
              (lit "Gemini API key not configured. Please set GEMINI_API_KEY in your environment variables.")),
     empty_world).
Proof. vm_compute. reflexivity. Qed.

Lemma analyze_never_fails_with_key_witness :
  (exists analysis,
     (analyze_document_with_gemini
        (sample_env (lit "key") (Raises (lit "429 quota exceeded")))
        (lit "Lease text") empty_world).1 = Return analysis)
  /\ document_store
       (analyze_document_with_gemini
          (sample_env (lit "key") (Raises (lit "429 quota exceeded")))
          (lit "Lease text") empty_world).2
     = document_store empty_world.
Proof.
  exact (analyze_never_fails_with_key
           (sample_env (lit "key") (Raises (lit "429 quota exceeded")))
           (lit "Lease text") empty_world eq_refl).
Defined.

(** C3 on a run: a valid upload with no API key is answered with 500 and
    its document stays in the store. *)
Lemma upload_failure_leaves_document_witness :
  exists l w1 detail w',
    upload_validate env_no_key (upload_of "lease.pdf" sample_pdf) empty_world
    = (Return l, w1)
    /\ l_doc_id l = lit "doc_20240101_120000_99"
    /\ upload_document env_no_key (upload_of "lease.pdf" sample_pdf) empty_world
       = (Raise (HTTPException 500 detail), w')
    /\ document_store w' !! l_doc_id l = Some (stored_record env_no_key l w1).
Proof.
  eassert (Hv : upload_validate env_no_key (upload_of "lease.pdf" sample_pdf)
                  empty_world = (Return _, _))
    by (vm_compute; reflexivity).
  destruct (upload_failure_leaves_document env_no_key
              (upload_of "lease.pdf" sample_pdf) empty_world _ _ eq_refl Hv)
    as (detail & w' & Hup & Hdoc).
  eexists _, _, detail, w'.
  split; [exact Hv|]. split; [vm_compute; reflexivity|].
  split; [exact Hup|exact Hdoc].
Defined.

(** C4 on three files: a PDF with an unreadable page, a PDF with no
    text, and a stream that is no PDF. *)
Lemma extract_text_from_pdf_spec_witness :
  (extract_text_from_pdf env_ok sample_pdf empty_world).1
  = Return (lit "This lease is made between the landlord and the tenant."
            ++ newline
            ++ lit "Rent is due on the first day of each month.")
  /\ (exists e, (extract_text_from_pdf env_ok image_pdf empty_world).1 = Raise e)
  /\ (exists e, (extract_text_from_pdf env_ok not_a_pdf empty_world).1 = Raise e).
Proof.
  split; [|split].
  - refine (proj2 (proj2 (proj2
              (extract_text_from_pdf_spec env_ok sample_pdf empty_world)))
              _ eq_refl _).
    vm_compute. discriminate.
  - apply (proj2 (proj1 (proj2
              (extract_text_from_pdf_spec env_ok image_pdf empty_world)))).
    right. eexists. split; [reflexivity|vm_compute; reflexivity].
  - apply (proj2 (proj1 (proj2
              (extract_text_from_pdf_spec env_ok not_a_pdf empty_world)))).
    left. eexists. reflexivity.
Defined.

(** A payload of [n] zero bytes. *)
Lemma len_replicate_zeros (n : Z) :
  0 <= n -> len (replicate (Z.to_nat n) Byte.x00) = n.
Proof. intros Hn. unfold len. rewrite length_replicate. lia. Qed.

(** C5 on six uploads: no file name, a name that is no PDF name, an
    empty payload, a payload of 10,485,761 bytes, a PDF with eleven
    characters of text, and a payload of exactly 10,485,760 bytes. *)
Lemma upload_rejects_bad_input_witness :
  (exists detail,
     upload_document env_ok
       {| file_filename := None; file_read := Returns sample_pdf |} empty_world
     = (Raise (HTTPException 400 detail), empty_world))
  /\ (exists detail,
        upload_document env_ok (upload_of "notes.txt" sample_pdf) empty_world
        = (Raise (HTTPException 400 detail), empty_world))
  /\ (exists detail,
        upload_document env_ok (upload_of "LEASE.PDF" []) empty_world
        = (Raise (HTTPException 400 detail), empty_world))
  /\ (exists detail,
        upload_document env_ok
          (upload_of "lease.pdf" (replicate (Z.to_nat 10485761) Byte.x00))
          empty_world
        = (Raise (HTTPException 400 detail), empty_world))
  /\ (exists detail,
        upload_document env_ok (upload_of "lease.pdf" short_pdf) empty_world
        = (Raise (HTTPException 400 detail), empty_world))
  /\ upload_check_file
       (upload_of "Lease.Pdf" (replicate (Z.to_nat 10485760) Byte.x00))
       empty_world
     = (Return (lit "Lease.Pdf",
                replicate (Z.to_nat 10485760) Byte.x00, 10485760),
        empty_world).
Proof.
  split; [|split; [|split; [|split; [|split]]]].
  - apply (proj1 (upload_rejects_bad_input env_ok _ empty_world)).
    apply no_filename. reflexivity.
  - apply (proj1 (upload_rejects_bad_input env_ok _ empty_world)).
    apply (not_a_pdf_name _ _ _ (lit "notes.txt")); reflexivity.
  - apply (proj1 (upload_rejects_bad_input env_ok _ empty_world)).
    apply (empty_payload _ _ _ []); reflexivity.
  - apply (proj1 (upload_rejects_bad_input env_ok _ empty_world)).
    apply (payload_too_large _ _ _ (replicate (Z.to_nat 10485761) Byte.x00));
      [reflexivity|].
    rewrite len_replicate_zeros; lia.
  - apply (proj1 (upload_rejects_bad_input env_ok _ empty_world)).
    apply (too_little_text _ _ _ short_pdf (lit "Short text."));
      [reflexivity|reflexivity|vm_compute; reflexivity].
  - apply (proj1 (proj2 (upload_rejects_bad_input env_ok
                            (upload_of "Lease.Pdf"
                               (replicate (Z.to_nat 10485760) Byte.x00))
                            empty_world)
                     (lit "Lease.Pdf") _ eq_refl eq_refl eq_refl eq_refl
                     (len_replicate_zeros 10485760 ltac:(lia)))).
Defined.

(** C6 on a run: an upload of the sample PDF, then the lookup. *)
Lemma upload_then_get_document_info_witness :
  exists resp w',
    upload_document env_ok (upload_of "lease.pdf" sample_pdf) empty_world
    = (Return resp, w')
    /\ exists doc content,
         document_store w' !! resp_document_id resp = Some doc
         /\ file_filename (upload_of "lease.pdf" sample_pdf)
            = Some (doc_filename doc)
         /\ file_read (upload_of "lease.pdf" sample_pdf) = Returns content
         /\ (extract_text_from_pdf env_ok content empty_world).1
            = Return (doc_text doc)
         /\ get_document_info (resp_document_id resp) w'
            = (Return {| info_document_id := resp_document_id resp;
                         info_filename := doc_filename doc;
                         info_upload_time := doc_upload_time doc;
                         info_text_length := len (doc_text doc);
                         info_text_preview :=
                           if 200 <? len (doc_text doc)
                           then take 200 (doc_text doc) ++ lit "..."
                           else doc_text doc |}, w').
Proof.
  eassert (Hup : upload_document env_ok (upload_of "lease.pdf" sample_pdf)
                   empty_world = (Return _, _))
    by (vm_compute; reflexivity).
  eexists _, _. split; [exact Hup|].
  exact (upload_then_get_document_info env_ok _ _ _ _ Hup).
Defined.

(** C7 as stated fails on three requests that carry a [document_id]
    that is no key of the store: with an empty store the reply speaks of
    the storage system; with no API key the answer is status 500; with
    an empty [document_id] the request is treated as carrying none. *)
Lemma chat_unknown_document_other_replies :
  (chat_with_document env_ok
     {| message := lit "Who pays the rent?";
        document_id := Some (lit "doc_20240101_120000_99");
        document_text := None |} empty_world).1
  = Return {| response := lit "The document storage system is not available. Please try uploading your document again.";
              timestamp := lit "2024-01-01T12:00:00" |}
  /\ (chat_with_document env_no_key
        {| message := lit "Who pays the rent?";
           document_id := Some (lit "doc_20240101_120000_99");
           document_text := None |} one_document_world).1
     = Raise (HTTPException 500 (lit "Gemini API key not configured"))
  /\ (chat_with_document env_ok
        {| message := lit "Who pays the rent?";
           document_id := Some [];
           document_text := None |} one_document_world).1
     = Return {| response := lit "Please upload a document first before asking questions.";
                 timestamp := lit "2024-01-01T12:00:00" |}.
Proof. repeat split; vm_compute; reflexivity. Qed.

Lemma chat_unknown_document_witness :
  chat_with_document env_ok
    {| message := lit "Who pays the rent?";
       document_id := Some (lit "doc_20240101_120000_99");
       document_text := None |} one_document_world
  = (Return {| response := lit "I couldn't find the document you're referring to. Please try uploading your document again.";
               timestamp := isoformat (now env_ok (clock_reads one_document_world)) |},
     ticked one_document_world).
Proof.
  apply (proj1 (chat_unknown_document env_ok
                  {| message := lit "Who pays the rent?";
                     document_id := Some (lit "doc_20240101_120000_99");
                     document_text := None |}
                  one_document_world (lit "doc_20240101_120000_99")
                  eq_refl eq_refl eq_refl
                  ltac:(vm_compute; reflexivity))).
  intros Hempty.
  apply (f_equal (fun m => m !! lit "doc_20231231_235959_17")) in Hempty.
  vm_compute in Hempty. discriminate.
Defined.

(** C8 as stated fails on a reply that begins with two fences: the code
    cuts both, the rule "a leading [```json], otherwise a leading [```]"
    cuts one. *)
Lemma clean_response_cuts_both_fences :
  clean_response (lit "```json```x") = lit "x"
  /\ strip_fences_spec (lit "```json```x") = lit "```x".
Proof. split; vm_compute; reflexivity. Qed.

Lemma clean_response_fences_witness :
  clean_response (lit "  ```json" ++ newline ++ lit "{}" ++ newline ++ lit "``` ")
  = strip_fences_spec
      (lit "  ```json" ++ newline ++ lit "{}" ++ newline ++ lit "``` ")
  /\ clean_response (lit "```json```x")
     = strip (let t := slice_from 10 (strip (lit "```json```x")) in
              if endswith t backticks then slice_drop_last 3 t else t)
  /\ clean_response (lit " {} ") = strip (lit " {} ").
Proof.
  split; [|split].
  - apply (proj1 (clean_response_fences _)). vm_compute. reflexivity.
  - apply (proj1 (proj2 (clean_response_fences _))). vm_compute. reflexivity.
  - apply (proj2 (proj2 (clean_response_fences _))); vm_compute; reflexivity.
Defined.

(** C9 on a short text, on a text of 25,001 characters, and on the
    prompts of an analysis and of a chat. *)
Lemma prompt_truncation_budget_witness :
  slice_to 25000 (lit "Lease text") = lit "Lease text"
  /\ len (slice_to 25000 (replicate (Z.to_nat 25001) "a"%char)) = 25000
  /\ generation_calls
       (analyze_document_with_gemini env_ok (lit "Lease text") empty_world).2
     = generation_calls empty_world ++ [analysis_prompt (lit "Lease text")]
  /\ generation_calls
       (chat_with_document env_ok
          {| message := lit "Who pays the rent?";
             document_id := None;
             document_text := Some (lit "Lease text") |} empty_world).2
     = generation_calls empty_world
       ++ [chat_prompt (lit "Lease text") (lit "Who pays the rent?")].
Proof.
  split; [|split; [|split]].
  - apply (proj1 (proj2 (prompt_truncation_budget env_ok (lit "Lease text")))).
    vm_compute. discriminate.
  - apply (proj1 (proj2 (proj2
             (prompt_truncation_budget env_ok
                (replicate (Z.to_nat 25001) "a"%char))))).
    unfold len. rewrite length_replicate. lia.
  - apply (proj1 (proj2 (proj2 (proj2 (proj2 (proj2 (proj2
             (prompt_truncation_budget env_ok (lit "Lease text")))))))));
      reflexivity.
  - apply (proj1 (proj2 (proj2 (proj2 (proj2 (proj2 (proj2 (proj2 (proj2
             (prompt_truncation_budget env_ok (lit "Lease text")))))))))));
      reflexivity.
Defined.

(** C10 as stated fails with no API key: the answer is status 500. *)
Lemma chat_empty_document_text_without_key :
  chat_with_document env_no_key
    {| message := lit "Who pays the rent?";
       document_id := None;
       document_text := Some [] |} empty_world
  = (Raise (HTTPException 500 (lit "Gemini API key not configured")),
     empty_world).
Proof. vm_compute. reflexivity. Qed.

Lemma chat_empty_document_text_witness :
  chat_with_document env_ok
    {| message := lit "Who pays the rent?";
       document_id := None;
       document_text := Some [] |} one_document_world
  = (Return {| response := lit "Please upload a document first before asking questions.";
               timestamp := isoformat (now env_ok (clock_reads one_document_world)) |},
     ticked one_document_world).
Proof.
  apply (proj1 (proj2 (proj2
           (chat_empty_document_text env_ok
              {| message := lit "Who pays the rent?";
                 document_id := None;
                 document_text := Some [] |}
              one_document_world eq_refl eq_refl)))).
  reflexivity.
Defined.

(** * Further properties of the handlers *)

(** ** White space and trimming *)

Section BlankFacts.

Implicit Types s t : str.

Lemma blank_app s t : blank (s ++ t) = blank s && blank t.
Proof. unfold blank. apply forallb_app. Qed.

Lemma blank_reverse s : blank (reverse s) = blank s.
Proof.
  induction s as [|c s IH]; [reflexivity|].
  rewrite reverse_cons, blank_app, IH. simpl. rewrite andb_true_r.
  apply andb_comm.
Qed.

Lemma lstrip_nil s : lstrip s = [] <-> blank s = true.
Proof.
  induction s as [|c s IH]; simpl; [tauto|].
  destruct (isspace c); simpl; [exact IH|]. split; discriminate.
Qed.

Lemma rstrip_nil s : rstrip s = [] <-> blank s = true.
Proof.
  unfold rstrip. rewrite <- blank_reverse, <- lstrip_nil. split.
  - intros H. apply (f_equal reverse) in H.
    rewrite reverse_involutive in H. exact H.
  - intros ->. reflexivity.
Qed.

(** Trimming leaves nothing exactly of the texts that are all white space. *)
Lemma strip_nil s : strip s = [] <-> blank s = true.
Proof.
  unfold strip. split.
  - intros H. apply rstrip_nil.
    rewrite <- rstrip_idemp. apply rstrip_nil. apply lstrip_nil. exact H.
  - intros H. apply rstrip_nil in H. rewrite H. reflexivity.
Qed.

Lemma len_zero {A} (l : list A) : len l = 0 <-> l = [].
Proof.
  unfold len. destruct l; simpl; split; try reflexivity; discriminate.
Qed.

Lemma blank_pages pages :
  blank (pages_text_spec pages) = false <-> Exists page_has_text pages.
Proof.
  unfold pages_text_spec.
  induction pages as [|page pages IH]; simpl.
  - split; [discriminate|]. intros H. inversion H.
  - rewrite blank_app, Exists_cons, <- IH, andb_false_iff.
    unfold page_has_text.
    destruct (extract_text page) as [page_text|msg].
    + rewrite blank_app. change (blank newline) with true.
      rewrite andb_true_r. split.
      * intros [H|H]; [left; eauto|right; exact H].
      * intros [(t & [= <-] & H)|H]; [left|right]; exact H.
    + split.
      * intros [H|H]; [discriminate|right; exact H].
      * intros [(t & Ht & _)|H]; [discriminate|right; exact H].
Qed.

Lemma rstrip_snoc s d : isspace d = false -> rstrip (s ++ [d]) = s ++ [d].
Proof.
  intros Hd. unfold rstrip. rewrite reverse_app.
  change (reverse [d]) with [d]. simpl. rewrite Hd.
  rewrite reverse_cons, reverse_involutive. reflexivity.
Qed.

(** A text whose first and last characters are no white space is its own
    trimming. *)
Lemma strip_fixed c s d :
  isspace c = false -> isspace d = false ->
  strip (c :: s ++ [d]) = c :: s ++ [d].
Proof.
  intros Hc Hd. unfold strip.
  rewrite (app_comm_cons s [d] c), (rstrip_snoc (c :: s) d Hd).
  simpl. rewrite Hc. reflexivity.
Qed.

(** White space around a text does not survive the trimming. *)
Lemma strip_blank_around a s b :
  blank a = true -> blank b = true -> strip (a ++ s ++ b) = strip s.
Proof.
  intros Ha Hb.
  assert (Hl : forall t, lstrip (a ++ t) = lstrip t).
  { intros t. rewrite lstrip_app.
    apply lstrip_nil in Ha. rewrite Ha.
    destruct (decide ([] = [])); [reflexivity|contradiction]. }
  assert (Hr : forall t, rstrip (t ++ b) = rstrip t).
  { intros t. unfold rstrip. rewrite reverse_app, lstrip_app.
    rewrite <- blank_reverse in Hb. apply lstrip_nil in Hb. rewrite Hb.
    destruct (decide ([] = [])); [reflexivity|contradiction]. }
  unfold strip. rewrite app_assoc, Hr.
  (* rstrip (a ++ s): either s is blank, or a stays in front *)
  destruct (blank s) eqn:Hs.
  - assert (Hall : blank (a ++ s) = true) by (rewrite blank_app, Ha, Hs; reflexivity).
    apply rstrip_nil in Hall. apply rstrip_nil in Hs.
    rewrite Hall, Hs. reflexivity.
  - assert (Hcut : rstrip (a ++ s) = a ++ rstrip s).
    { unfold rstrip. rewrite reverse_app, lstrip_app.
      destruct (decide (lstrip (reverse s) = [])) as [Hn|Hn].
      - apply lstrip_nil in Hn. rewrite blank_reverse in Hn. congruence.
      - rewrite reverse_app, reverse_involutive. reflexivity. }
    rewrite Hcut. apply Hl.
Qed.

End BlankFacts.

(** ** More on the text extraction *)

Section ExtractionOutcome.

Variable E : Env.

(** X1: the three outcomes of [extract_text_from_pdf].  When the reader
    raises, the answer is status 400 with the reader's message after
    [Error extracting text from PDF: ]; when no page yields a character
    that is no white space (no page at all, unreadable pages, an
    image-only file), status 400 with the no-text message; otherwise the
    trimmed page texts, a non-empty text that trimming leaves as it is. *)
Theorem extract_text_from_pdf_outcome (file_content : bytes) (w : World) :
  (forall msg,
     PdfReader E file_content = Raises msg ->
     extract_text_from_pdf E file_content w
     = (Raise (HTTPException 400
                 (lit "Error extracting text from PDF: " ++ msg)), w))
  /\ (forall pages,
        PdfReader E file_content = Returns pages ->
        ~ Exists page_has_text pages ->
        extract_text_from_pdf E file_content w
        = (Raise (HTTPException 400
                    (lit "Error extracting text from PDF: "
                     ++ lit "No text could be extracted from the PDF. The file might be image-based or corrupted.")),
           w))
  /\ (forall pages,
        PdfReader E file_content = Returns pages ->
        Exists page_has_text pages ->
        exists text,
          extract_text_from_pdf E file_content w = (Return text, w)
          /\ text = strip (pages_text_spec pages)
          /\ strip text = text
          /\ 0 < len text).
Proof.
  unfold extract_text_from_pdf, extract_body. run_monad.
  split; [|split].
  - intros msg ->. reflexivity.
  - intros pages -> Hnone. simpl. rewrite fold_add_page. simpl.
    rewrite <- blank_pages in Hnone.
    apply not_false_is_true, strip_nil in Hnone. rewrite Hnone. reflexivity.
  - intros pages -> Hsome. simpl. rewrite fold_add_page. simpl.
    apply blank_pages in Hsome.
    assert (Hne : strip (pages_text_spec pages) <> []).
    { intros Hnil. apply strip_nil in Hnil. congruence. }
    assert (Hlen : len (strip (pages_text_spec pages)) <> 0).
    { intros Hz. apply len_zero in Hz. contradiction. }
    apply Z.eqb_neq in Hlen as Hb. rewrite Hb.
    eexists. split; [reflexivity|]. split; [reflexivity|].
    split; [apply strip_idemp|].
    pose proof (len_nonneg (strip (pages_text_spec pages))). lia.
Qed.

End ExtractionOutcome.

Lemma extract_text_from_pdf_outcome_witness :
  (exists detail,
     extract_text_from_pdf env_ok not_a_pdf empty_world
     = (Raise (HTTPException 400 detail), empty_world))
  /\ (exists detail,
        extract_text_from_pdf env_ok image_pdf empty_world
        = (Raise (HTTPException 400 detail), empty_world))
  /\ (exists text,
        extract_text_from_pdf env_ok sample_pdf empty_world
        = (Return text, empty_world)
        /\ strip text = text /\ 0 < len text).
Proof.
  split; [|split].
  - eexists.
    exact (proj1 (extract_text_from_pdf_outcome env_ok not_a_pdf empty_world)
             _ eq_refl).
  - eexists.
    refine (proj1 (proj2 (extract_text_from_pdf_outcome env_ok image_pdf
                            empty_world)) _ eq_refl _).
    rewrite <- blank_pages. vm_compute. discriminate.
  - destruct (proj2 (proj2 (extract_text_from_pdf_outcome env_ok sample_pdf
                              empty_world)) _ eq_refl)
      as (text & Hrun & _ & Htrim & Hlen).
    + apply blank_pages. vm_compute. reflexivity.
    + exists text. auto.
Defined.

(** ** More on the upload *)

Section UploadRuns.

Variable E : Env.

Lemma extract_text_from_pdf_returns content w text :
  (extract_text_from_pdf E content w).1 = Return text ->
  extract_text_from_pdf E content w = (Return text, w).
Proof.
  intros H. rewrite (surjective_pairing (extract_text_from_pdf E content w)).
  rewrite H, extract_text_from_pdf_world. reflexivity.
Qed.

Lemma extract_text_from_pdf_trimmed content w text :
  (extract_text_from_pdf E content w).1 = Return text -> strip text = text.
Proof.
  unfold extract_text_from_pdf, extract_body. run_monad.
  destruct (PdfReader E content) as [pages|msg]; simpl; [|discriminate].
  destruct (len (strip _) =? 0); simpl; [discriminate|].
  intros [= <-]. apply strip_idemp.
Qed.

(** A file that meets every check of lines 209-240 gets its identifier. *)
Lemma upload_validate_run file w name content text :
  file_filename file = Some name ->
  truthy name = true ->
  endswith (lower name) (lit ".pdf") = true ->
  file_read file = Returns content ->
  0 < len content <= 10485760 ->
  (extract_text_from_pdf E content w).1 = Return text ->
  50 <= len (strip text) ->
  upload_validate E file w
  = (Return {| l_filename := name;
               l_file_size := len content;
               l_document_text := text;
               l_doc_id := new_doc_id E w text |}, ticked w).
Proof.
  intros Hname Ht Hpdf Hread Hsize Hx Hlen.
  apply extract_text_from_pdf_returns in Hx.
  unfold upload_validate, upload_check_file, upload_extract, datetime_now.
  run_monad. rewrite Hname. simpl. rewrite Ht, Hpdf, Hread. simpl.
  destruct (len content =? 0) eqn:Hz; [apply Z.eqb_eq in Hz; lia|].
  destruct (len content >? 10 * 1024 * 1024) eqn:Hm; [lia|].
  rewrite Hx.
  destruct (len (strip text) <? 50) eqn:Hs; [lia|]. reflexivity.
Qed.

(** What a passed validation has done: the clock was read once, and the
    identifier is the one of line 243. *)
Lemma upload_validate_returns file w l w1 :
  upload_validate E file w = (Return l, w1) ->
  w1 = ticked w /\ l_doc_id l = new_doc_id E w (l_document_text l).
Proof.
  intros Hv.
  pose proof (upload_validate_ok E _ _ _ _ Hv)
    as (content & Hname & Hpdf & Hread & Hsize & Hbound & Hx & Hlen & _).
  assert (Ht : truthy (l_filename l) = true).
  { destruct (l_filename l) eqn:Hn; [|reflexivity].
    vm_compute in Hpdf. discriminate. }
  rewrite (upload_validate_run file w _ content _ Hname Ht Hpdf Hread
             Hbound Hx Hlen) in Hv.
  injection Hv as <- <-. split; reflexivity.
Qed.

(** Lines 247-268 are the analysis, run in the world that holds the record. *)
Lemma upload_store_and_analyze_eq l w :
  upload_store_and_analyze E l w
  = (match (analyze_document_with_gemini E (l_document_text l)
              (stored_world E l w)).1 with
     | Return analysis =>
         Return {| resp_document_id := l_doc_id l;
                   resp_filename := l_filename l;
                   resp_analysis := analysis;
                   resp_text_length := len (l_document_text l) |}
     | Raise e => Raise e
     end,
     (analyze_document_with_gemini E (l_document_text l)
        (stored_world E l w)).2).
Proof.
  unfold upload_store_and_analyze, datetime_now. run_monad. simpl.
  fold (stored_record E l w). fold (stored_world E l w).
  destruct (analyze_document_with_gemini E _ _) as [[a|e] w']; reflexivity.
Qed.

(** A returned upload has passed the validation, holds the API key, and
    has stored its record. *)
Lemma upload_document_returns file w resp w' :
  upload_document E file w = (Return resp, w') ->
  exists l,
    upload_validate E file w = (Return l, ticked w)
    /\ l_doc_id l = new_doc_id E w (l_document_text l)
    /\ resp_document_id resp = l_doc_id l
    /\ resp_filename resp = l_filename l
    /\ resp_text_length resp = len (l_document_text l)
    /\ truthy (GEMINI_API_KEY E) = true
    /\ document_store w'
       = <[l_doc_id l := stored_record E l (ticked w)]> (document_store w)
    /\ clock_reads w' = S (S (clock_reads w)).
Proof.
  intros Hup.
  destruct (upload_validate E file w) as [[l|e] w1] eqn:Hv.
  - destruct (upload_validate_returns _ _ _ _ Hv) as [-> Hid].
    rewrite (upload_document_validated E _ _ _ _ Hv) in Hup.
    unfold try_except in Hup. rewrite upload_store_and_analyze_eq in Hup.
    pose proof (analyze_world E (l_document_text l) (stored_world E l (ticked w)))
      as Hw.
    destruct (analyze_document_with_gemini E _ _) as [[a|e] w2] eqn:Ha;
      simpl in *.
    + injection Hup as <- <-. exists l. simpl.
      assert (Hk : truthy (GEMINI_API_KEY E) = true).
      { destruct (truthy (GEMINI_API_KEY E)) eqn:Hk; [reflexivity|].
        unfold analyze_document_with_gemini in Ha. rewrite Hk in Ha.
        discriminate. }
      destruct Hw as [-> | ->]; auto 10.
    + unfold upload_except in Hup. run_monad.
      destruct e; simpl in Hup; [discriminate|].
      destruct (bool_decide _); discriminate.
  - unfold upload_document, upload_except in Hup. run_monad.
    rewrite Hv in Hup. destruct e; discriminate.
Qed.

(** X2: a valid upload succeeds.  With the API key configured, a file
    with a PDF name, a payload of 1 to 10,485,760 bytes and an extracted
    text of at least 50 characters is answered with the identifier of
    line 243, its own file name, an analysis and the length of the text;
    the store gains exactly that record under that identifier, the clock
    was read twice, and at most one prompt, the analysis prompt of the
    text, was sent. *)
Theorem upload_document_succeeds
    (file : UploadFile) (w : World) (name : str) (content : bytes) (text : str) :
  truthy (GEMINI_API_KEY E) = true ->
  file_filename file = Some name ->
  truthy name = true ->
  endswith (lower name) (lit ".pdf") = true ->
  file_read file = Returns content ->
  0 < len content <= 10485760 ->
  (extract_text_from_pdf E content w).1 = Return text ->
  50 <= len text ->
  exists analysis w',
    upload_document E file w
    = (Return {| resp_document_id := new_doc_id E w text;
                 resp_filename := name;
                 resp_analysis := analysis;
                 resp_text_length := len text |}, w')
    /\ document_store w'
       = <[new_doc_id E w text :=
             {| doc_text := text;
                doc_filename := name;
                doc_upload_time := isoformat (now E (S (clock_reads w)));
                doc_file_size := len content |}]> (document_store w)
    /\ clock_reads w' = S (S (clock_reads w))
    /\ (generation_calls w' = generation_calls w
        \/ generation_calls w' = generation_calls w ++ [analysis_prompt text]).
Proof.
  intros Hkey Hname Ht Hpdf Hread Hsize Hx Hlen.
  assert (Hs : 50 <= len (strip text))
    by (rewrite (extract_text_from_pdf_trimmed _ _ _ Hx); exact Hlen).
  pose proof (upload_validate_run file w name content text
                Hname Ht Hpdf Hread Hsize Hx Hs) as Hv.
  rewrite (upload_document_validated E _ _ _ _ Hv).
  unfold try_except. rewrite upload_store_and_analyze_eq. simpl.
  match goal with
  | |- context [analyze_document_with_gemini E text ?w0] =>
      destruct (analyze_never_raises_with_key E text w0 Hkey) as [a Ha];
      pose proof (analyze_world E text w0) as Hw;
      rewrite Ha
  end.
  eexists a, _. split; [reflexivity|].
  destruct Hw as [-> | ->]; simpl; auto.
Qed.

(** X3: when [file.read()] raises under a PDF name, the upload is
    answered with status 500, the exception's message after the fixed
    text of line 284, and the world is as it was: nothing was stored,
    nothing sent. *)
Theorem upload_document_read_failure
    (file : UploadFile) (w : World) (name msg : str) :
  file_filename file = Some name ->
  truthy name = true ->
  endswith (lower name) (lit ".pdf") = true ->
  file_read file = Raises msg ->
  upload_document E file w
  = (Raise (HTTPException 500
              (lit "An unexpected error occurred while processing your document. Please try again. Error: "
               ++ msg)), w).
Proof.
  intros Hname Ht Hpdf Hread.
  unfold upload_document, upload_validate, upload_check_file, upload_except.
  run_monad. rewrite Hname. simpl. rewrite Ht, Hpdf, Hread. reflexivity.
Qed.

End UploadRuns.

(** ** The document store under the handlers *)

Section StoreFacts.

Variable E : Env.

(** The analysis raises nothing but the 500 of the missing key. *)
Lemma analyze_raises text w e :
  (analyze_document_with_gemini E text w).1 = Raise e ->
  truthy (GEMINI_API_KEY E) = false /\ exists detail, e = HTTPException 500 detail.
Proof.
  intros H. destruct (truthy (GEMINI_API_KEY E)) eqn:Hk.
  - destruct (analyze_never_raises_with_key E text w Hk) as [a Ha]. congruence.
  - unfold analyze_document_with_gemini in H. rewrite Hk in H. simpl in H.
    injection H as <-. eauto.
Qed.

(** The store after an upload, whatever its outcome: as it was, or with
    the record of this upload under its identifier. *)
Lemma upload_document_store file w :
  document_store (upload_document E file w).2 = document_store w
  \/ exists l,
       upload_validate E file w = (Return l, ticked w)
       /\ document_store (upload_document E file w).2
          = <[l_doc_id l := stored_record E l (ticked w)]> (document_store w).
Proof.
  destruct (upload_validate E file w) as [[l|e] w1] eqn:Hv.
  - destruct (upload_validate_returns E _ _ _ _ Hv) as [-> _].
    right. exists l. split; [reflexivity|].
    rewrite (upload_document_validated E _ _ _ _ Hv).
    unfold try_except. rewrite upload_store_and_analyze_eq.
    pose proof (analyze_store E (l_document_text l) (stored_world E l (ticked w)))
      as Hst.
    pose proof (analyze_raises (l_document_text l) (stored_world E l (ticked w)))
      as Hr.
    destruct (analyze_document_with_gemini E _ _) as [[a|e] w2]; simpl in *.
    + exact Hst.
    + destruct (Hr e eq_refl) as [_ [detail ->]]. simpl. exact Hst.
  - left. apply upload_validate_raises in Hv as Hw. destruct Hw as [-> Hw].
    unfold upload_document, upload_except. run_monad. rewrite Hv.
    destruct e; reflexivity.
Qed.

(** The record of a validated upload meets [stored_document_ok]. *)
Lemma stored_record_ok file w l w1 :
  upload_validate E file w = (Return l, w1) ->
  stored_document_ok (stored_record E l w1).
Proof.
  intros Hv.
  pose proof (upload_validate_ok E _ _ _ _ Hv)
    as (content & Hname & Hpdf & Hread & Hsize & Hbound & Hx & Hlen & _).
  pose proof (extract_text_from_pdf_trimmed E _ _ _ Hx) as Htrim.
  unfold stored_document_ok. simpl. rewrite Htrim in Hlen.
  rewrite Hsize. auto.
Qed.

(** X4: the store invariant.  If every stored document has a trimmed
    text of at least 50 characters, a PDF file name and a size between 1
    and 10,485,760 bytes, the same holds after any upload, whatever its
    outcome. *)
Theorem upload_document_keeps_store_ok (file : UploadFile) (w : World) :
  store_ok (document_store w) ->
  store_ok (document_store (upload_document E file w).2).
Proof.
  intros Hok.
  destruct (upload_document_store file w) as [-> | (l & Hv & ->)];
    [exact Hok|].
  intros id doc Hdoc.
  destruct (decide (l_doc_id l = id)) as [<-|Hne].
  - rewrite lookup_insert_eq in Hdoc. injection Hdoc as <-.
    exact (stored_record_ok _ _ _ _ Hv).
  - rewrite lookup_insert_ne in Hdoc by exact Hne. exact (Hok _ _ Hdoc).
Qed.

(** X5: an upload removes no document and changes the store under one
    identifier at most, whatever its outcome. *)
Theorem upload_document_frame (file : UploadFile) (w : World) :
  (forall id, is_Some (document_store w !! id) ->
              is_Some (document_store (upload_document E file w).2 !! id))
  /\ (forall id id',
        document_store (upload_document E file w).2 !! id
        <> document_store w !! id ->
        document_store (upload_document E file w).2 !! id'
        <> document_store w !! id' ->
        id = id').
Proof.
  destruct (upload_document_store file w) as [-> | (l & Hv & ->)].
  - split; [auto|]. intros id id' H. contradiction.
  - split.
    + intros id Hin. destruct (decide (l_doc_id l = id)) as [<-|Hne].
      * rewrite lookup_insert_eq. eauto.
      * rewrite lookup_insert_ne by exact Hne. exact Hin.
    + intros id id' H H'.
      destruct (decide (l_doc_id l = id)) as [<-|Hne];
        [|rewrite lookup_insert_ne in H by exact Hne; contradiction].
      destruct (decide (l_doc_id l = id')) as [<-|Hne'];
        [reflexivity|].
      rewrite lookup_insert_ne in H' by exact Hne'. contradiction.
Qed.

(** X6: identifiers can collide, and a collision overwrites.  When a
    second successful upload gets the identifier of an earlier one, the
    store has as many documents as before it, and the identifier now
    leads to the second file: its name and a text of the second
    response's length. *)
Theorem upload_document_collision
    (file1 file2 : UploadFile) (w w1 w2 : World)
    (resp1 resp2 : DocumentResponse) :
  upload_document E file1 w = (Return resp1, w1) ->
  upload_document E file2 w1 = (Return resp2, w2) ->
  resp_document_id resp2 = resp_document_id resp1 ->
  size (document_store w2) = size (document_store w1)
  /\ exists doc,
       document_store w2 !! resp_document_id resp1 = Some doc
       /\ doc_filename doc = resp_filename resp2
       /\ len (doc_text doc) = resp_text_length resp2
       /\ file_filename file2 = Some (doc_filename doc).
Proof.
  intros H1 H2 Hid.
  apply upload_document_returns in H1
    as (l1 & _ & _ & Hid1 & _ & _ & _ & Hst1 & _).
  apply upload_document_returns in H2
    as (l2 & Hv2 & _ & Hid2 & Hn2 & Hl2 & _ & Hst2 & _).
  pose proof (upload_validate_ok E _ _ _ _ Hv2) as (c & Hname & _).
  assert (Hsame : l_doc_id l2 = l_doc_id l1) by congruence.
  split.
  - rewrite Hst2, Hsame.
    assert (Hin : is_Some (document_store w1 !! l_doc_id l1))
      by (rewrite Hst1, lookup_insert_eq; eauto).
    apply map_size_insert_Some. exact Hin.
  - exists (stored_record E l2 (ticked w1)).
    rewrite Hst2, Hid1, <- Hsame, lookup_insert_eq. simpl.
    rewrite Hn2, Hl2. auto.
Qed.

End StoreFacts.

(** ** More on the chat *)

Section ChatRuns.

Variable E : Env.

(** Lines 330-347, case by case. *)
Lemma chat_generate_cases chat_request text w :
  match GenerativeModel E (lit "gemini-1.5-flash") with
  | Raises msg =>
      chat_generate E chat_request text w = (Raise (Exception msg), w)
  | Returns _ =>
      match generate_content E (chat_prompt text (message chat_request)) with
      | Raises msg =>
          chat_generate E chat_request text w
          = (Raise (Exception msg),
             sent w (chat_prompt text (message chat_request)))
      | Returns reply =>
          match response_text reply with
          | Raises msg =>
              chat_generate E chat_request text w
              = (Raise (Exception msg),
                 sent w (chat_prompt text (message chat_request)))
          | Returns raw =>
              chat_generate E chat_request text w
              = (Return {| response := strip raw;
                           timestamp := isoformat (now E (clock_reads w)) |},
                 ticked (sent w (chat_prompt text (message chat_request))))
          end
      end
  end.
Proof.
  unfold chat_generate, model_generate_content, chat_response, datetime_now.
  run_monad.
  destruct (GenerativeModel E _) as [[]|msg]; [|reflexivity].
  destruct (generate_content E _) as [reply|msg]; [|reflexivity].
  destruct (response_text reply) as [raw|msg]; reflexivity.
Qed.

(** With the API key, a request about a document is lines 330-347 under
    the handler of lines 349-355. *)
Lemma chat_resolved chat_request w text :
  truthy (GEMINI_API_KEY E) = true ->
  chat_document chat_request w text ->
  chat_with_document E chat_request w
  = try_except (chat_generate E chat_request text)
      (fun e => chat_response E (chat_error_text (str_of_exn e))) w.
Proof.
  intros Hkey [id doc Hid Ht Hdoc <-|Hid Htext Ht].
  - exact (chat_with_stored_document E _ _ _ _ Hkey Hid Ht Hdoc).
  - unfold chat_with_document, chat_body, try_except.
    rewrite Hkey, Hid, Htext. simpl. rewrite Ht. reflexivity.
Qed.

(** The [try] body of the chat reads the clock at most once, at the
    time of the call, and leaves the store alone. *)
Lemma chat_body_run chat_request w :
  (exists reply w',
     chat_body E chat_request w
     = (Return {| response := reply;
                  timestamp := isoformat (now E (clock_reads w)) |}, w')
     /\ document_store w' = document_store w
     /\ clock_reads w' = S (clock_reads w))
  \/ (exists e w',
        chat_body E chat_request w = (Raise e, w')
        /\ document_store w' = document_store w
        /\ clock_reads w' = clock_reads w).
Proof.
  assert (Hgen : forall text,
             (exists reply w',
                chat_generate E chat_request text w
                = (Return {| response := reply;
                             timestamp := isoformat (now E (clock_reads w)) |},
                   w')
                /\ document_store w' = document_store w
                /\ clock_reads w' = S (clock_reads w))
             \/ (exists e w',
                   chat_generate E chat_request text w = (Raise e, w')
                   /\ document_store w' = document_store w
                   /\ clock_reads w' = clock_reads w)).
  { intros text. pose proof (chat_generate_cases chat_request text w) as H.
    destruct (GenerativeModel E _) as [[]|msg]; [|right; eauto].
    destruct (generate_content E _) as [reply|msg]; [|right; eauto].
    destruct (response_text reply) as [raw|msg]; [left|right]; eauto. }
  unfold chat_body. run_monad.
  destruct (truthy_opt (document_id chat_request)).
  - simpl. destruct (bool_decide (document_store w = ∅));
      [left; unfold chat_response, datetime_now; run_monad; eauto|].
    destruct (document_store w !! _) as [doc|]; [apply Hgen|].
    left. unfold chat_response, datetime_now. run_monad. eauto.
  - destruct (truthy_opt (document_text chat_request)); [apply Hgen|].
    left. unfold chat_response, datetime_now. run_monad. eauto.
Qed.

(** X7: the chat always answers.  With no API key the answer is the
    status 500 of lines 292-294 and the world is as it was.  With the
    key, whatever the request, the store and the external libraries, the
    answer is a [ChatResponse] stamped with the clock reading at the
    call; the clock was read once and the store is as it was. *)
Theorem chat_with_document_always_answers
    (chat_request : ChatMessage) (w : World) :
  (truthy (GEMINI_API_KEY E) = false ->
   chat_with_document E chat_request w
   = (Raise (HTTPException 500 (lit "Gemini API key not configured")), w))
  /\ (truthy (GEMINI_API_KEY E) = true ->
      exists reply w',
        chat_with_document E chat_request w
        = (Return {| response := reply;
                     timestamp := isoformat (now E (clock_reads w)) |}, w')
        /\ document_store w' = document_store w
        /\ clock_reads w' = S (clock_reads w)).
Proof.
  unfold chat_with_document. split; intros ->; simpl; [reflexivity|].
  unfold try_except.
  destruct (chat_body_run chat_request w)
    as [(reply & w' & -> & Hst & Hc)|(e & w' & -> & Hst & Hc)].
  - eauto.
  - unfold chat_response, datetime_now. run_monad.
    rewrite Hc. eexists _, _. split; [reflexivity|]. simpl. auto.
Qed.

(** X8: the answer of a chat about a document.  With the API key and the
    model built, one prompt is sent, [chat_prompt] of the document text
    and the question; when the model returns a text the reply is that
    text trimmed, and when the call or the reading of its text raises,
    the reply is the apology of line 353 followed by the exception's
    message. *)
Theorem chat_with_document_reply
    (chat_request : ChatMessage) (w : World) (text : str) :
  truthy (GEMINI_API_KEY E) = true ->
  chat_document chat_request w text ->
  GenerativeModel E (lit "gemini-1.5-flash") = Returns tt ->
  let prompt := chat_prompt text (message chat_request) in
  let answer reply :=
    (Return {| response := reply;
               timestamp := isoformat (now E (clock_reads w)) |},
     ticked (sent w prompt)) in
  (forall reply raw,
     generate_content E prompt = Returns reply ->
     response_text reply = Returns raw ->
     chat_with_document E chat_request w = answer (strip raw))
  /\ (forall msg,
        generate_content E prompt = Raises msg ->
        chat_with_document E chat_request w = answer (chat_error_text msg))
  /\ (forall reply msg,
        generate_content E prompt = Returns reply ->
        response_text reply = Raises msg ->
        chat_with_document E chat_request w = answer (chat_error_text msg)).
Proof.
  intros Hkey Hdoc Hmodel. cbv zeta.
  rewrite (chat_resolved _ _ _ Hkey Hdoc). unfold try_except.
  pose proof (chat_generate_cases chat_request text w) as H.
  rewrite Hmodel in H.
  split; [|split].
  - intros reply raw Hr Ht. rewrite Hr, Ht in H. rewrite H. reflexivity.
  - intros msg Hr. rewrite Hr in H. rewrite H. reflexivity.
  - intros reply msg Hr Ht. rewrite Hr, Ht in H. rewrite H. reflexivity.
Qed.

(** X9: when the model cannot be built, a chat about a document sends
    no prompt and replies with the apology of line 353 followed by the
    exception's message. *)
Theorem chat_with_document_model_failure
    (chat_request : ChatMessage) (w : World) (text msg : str) :
  truthy (GEMINI_API_KEY E) = true ->
  chat_document chat_request w text ->
  GenerativeModel E (lit "gemini-1.5-flash") = Raises msg ->
  chat_with_document E chat_request w
  = (Return {| response := chat_error_text msg;
               timestamp := isoformat (now E (clock_reads w)) |},
     ticked w).
Proof.
  intros Hkey Hdoc Hmodel.
  rewrite (chat_resolved _ _ _ Hkey Hdoc). unfold try_except.
  pose proof (chat_generate_cases chat_request text w) as H.
  rewrite Hmodel in H. rewrite H. reflexivity.
Qed.

(** X10: a non-empty [document_id] wins over [document_text]: the text
    sent along is ignored, also when the identifier is unknown. *)
Theorem chat_document_id_precedence
    (question id : str) (supplied : option str) (w : World) :
  truthy id = true ->
  chat_with_document E
    {| message := question; document_id := Some id;
       document_text := supplied |} w
  = chat_with_document E
      {| message := question; document_id := Some id;
         document_text := None |} w.
Proof.
  intros Ht. unfold chat_with_document, chat_body, try_except. run_monad.
  simpl. rewrite Ht. reflexivity.
Qed.

End ChatRuns.

(** ** Upload, then chat, lookup and status *)

Section AfterUpload.

Variable E : Env.

Lemma new_doc_id_truthy w text : truthy (new_doc_id E w text) = true.
Proof. reflexivity. Qed.

Lemma len_app {A} (l k : list A) : len (l ++ k) = len l + len k.
Proof. unfold len. rewrite length_app. lia. Qed.

(** X11: upload, then chat.  A chat that names the identifier of a
    successful upload is about the text that upload extracted: with the
    model built, the one prompt it sends is [chat_prompt] of that text
    and the question, and a text the model returns comes back trimmed. *)
Theorem upload_then_chat
    (file : UploadFile) (w w' : World) (resp : DocumentResponse)
    (chat_request : ChatMessage) :
  upload_document E file w = (Return resp, w') ->
  document_id chat_request = Some (resp_document_id resp) ->
  GenerativeModel E (lit "gemini-1.5-flash") = Returns tt ->
  exists content text,
    file_read file = Returns content
    /\ (extract_text_from_pdf E content w).1 = Return text
    /\ generation_calls (chat_with_document E chat_request w').2
       = generation_calls w' ++ [chat_prompt text (message chat_request)]
    /\ (forall reply raw,
          generate_content E (chat_prompt text (message chat_request))
          = Returns reply ->
          response_text reply = Returns raw ->
          (chat_with_document E chat_request w').1
          = Return {| response := strip raw;
                      timestamp := isoformat (now E (clock_reads w')) |}).
Proof.
  intros Hup Hid Hmodel.
  apply upload_document_returns in Hup
    as (l & Hv & Hnew & Hrid & _ & _ & Hkey & Hst & _).
  pose proof (upload_validate_ok E _ _ _ _ Hv)
    as (content & _ & _ & Hread & _ & _ & Hx & _).
  exists content, (l_document_text l).
  assert (Hdoc : chat_document chat_request w' (l_document_text l)).
  { apply (stored_text _ _ _ (l_doc_id l) (stored_record E l (ticked w))).
    - rewrite Hid, Hrid. reflexivity.
    - rewrite Hnew. apply new_doc_id_truthy.
    - rewrite Hst. apply lookup_insert_eq.
    - reflexivity. }
  rewrite (chat_resolved E _ _ _ Hkey Hdoc). unfold try_except.
  pose proof (chat_generate_cases E chat_request (l_document_text l) w') as H.
  rewrite Hmodel in H.
  split; [exact Hread|]. split; [exact Hx|]. split.
  - destruct (generate_content E _) as [reply|msg];
      [destruct (response_text reply) as [raw|msg]|]; rewrite H; reflexivity.
  - intros reply raw Hr Ht. rewrite Hr, Ht in H. rewrite H. reflexivity.
Qed.

(** X12: the lookup of a document.  An identifier that is no key of the
    store is answered with status 404; a known one with the record's
    file name, upload time and text length, and a preview of at most 203
    characters that is the whole text when the text has at most 200.
    The world is as it was in both cases. *)
Theorem get_document_info_outcome (id : str) (w : World) :
  (document_store w !! id = None ->
   get_document_info id w
   = (Raise (HTTPException 404 (lit "Document not found")), w))
  /\ (forall doc,
        document_store w !! id = Some doc ->
        exists info,
          get_document_info id w = (Return info, w)
          /\ info_document_id info = id
          /\ info_filename info = doc_filename doc
          /\ info_upload_time info = doc_upload_time doc
          /\ info_text_length info = len (doc_text doc)
          /\ len (info_text_preview info) <= 203
          /\ (len (doc_text doc) <= 200 ->
              info_text_preview info = doc_text doc)).
Proof.
  unfold get_document_info. run_monad. split.
  - intros ->. reflexivity.
  - intros doc ->. eexists. split; [reflexivity|]. simpl.
    repeat split.
    + destruct (len (doc_text doc) >? 200) eqn:Hl.
      * rewrite len_app, len_slice_to by lia.
        change (len (lit "...")) with 3. lia.
      * lia.
    + intros Hl. destruct (len (doc_text doc) >? 200) eqn:Hg; [lia|].
      reflexivity.
Qed.

(** X13: the status after an upload.  After a successful upload
    [health_check] reports the key as configured, lists the new
    identifier among the stored ones and counts the documents of the
    store: one more than before when the identifier is new, as many as
    before when it replaced a document. *)
Theorem upload_then_health_check
    (file : UploadFile) (w w' : World) (resp : DocumentResponse) :
  upload_document E file w = (Return resp, w') ->
  exists h,
    health_check E w' = (Return h, w')
    /\ gemini_configured h = true
    /\ resp_document_id resp ∈ stored_document_ids h
    /\ (document_store w !! resp_document_id resp = None ->
        documents_stored h = Z.of_nat (size (document_store w)) + 1)
    /\ (is_Some (document_store w !! resp_document_id resp) ->
        documents_stored h = Z.of_nat (size (document_store w))).
Proof.
  intros Hup.
  apply upload_document_returns in Hup
    as (l & _ & _ & Hrid & _ & _ & Hkey & Hst & _).
  unfold health_check. run_monad. eexists. split; [reflexivity|]. simpl.
  rewrite Hkey, Hst, Hrid. split; [reflexivity|]. split.
  - apply elem_of_dom. rewrite lookup_insert_eq. eauto.
  - split.
    + intros Hnew. rewrite (map_size_insert_None _ _ _ Hnew). lia.
    + intros Hold. rewrite (map_size_insert_Some _ _ _ Hold). reflexivity.
Qed.

End AfterUpload.

(** ** More on the analysis *)

Section AnalysisOutcomes.

Variable E : Env.

(** The five values line 169-175 pass to the validation. *)
Lemma parse_reply_object response_text members w :
  json_loads E response_text = Loaded (JObject members) ->
  parse_reply E response_text w
  = (match validate_DocumentAnalysis E
             (member_or members (lit "summary")
                (JString (lit "Document analysis completed.")))
             (member_or members (lit "key_clauses") (JArray []))
             (member_or members (lit "obligations") (JArray []))
             (member_or members (lit "risks") (JArray []))
             (member_or members (lit "unusual_terms") (JArray [])) with
     | Returns analysis => Return analysis
     | Raises msg => Raise (Exception msg)
     end, w).
Proof.
  intros Hj. unfold parse_reply, py_get, member_or. rewrite Hj. run_monad.
  destruct (validate_DocumentAnalysis E _ _ _ _ _); reflexivity.
Qed.

Lemma parse_reply_not_object response_text v w :
  json_loads E response_text = Loaded v ->
  (forall members, v <> JObject members) ->
  exists msg, parse_reply E response_text w = (Raise (Exception msg), w).
Proof.
  intros Hj Hv. unfold parse_reply, py_get. rewrite Hj. run_monad.
  destruct v; try (eexists; reflexivity).
  exfalso. exact (Hv _ eq_refl).
Qed.

(** The analysis once the model has answered with a text. *)
Lemma analyze_answered text w reply raw :
  truthy (GEMINI_API_KEY E) = true ->
  GenerativeModel E (lit "gemini-1.5-flash") = Returns tt ->
  generate_content E (analysis_prompt text) = Returns reply ->
  response_text reply = Returns raw ->
  analyze_document_with_gemini E text w
  = (match (parse_reply E (clean_response raw)
              (sent w (analysis_prompt text))).1 with
     | Return analysis => Return analysis
     | Raise _ => Return infra_fallback
     end, sent w (analysis_prompt text)).
Proof.
  intros Hkey Hmodel Hr Ht.
  unfold analyze_document_with_gemini, try_except. rewrite Hkey. simpl.
  pose proof (analyze_body_cases E text w) as H.
  rewrite Hmodel, Hr, Ht in H. rewrite H.
  destruct (parse_reply _ _ _).1; reflexivity.
Qed.

(** X14: what the analysis absorbs.  With the API key, the result is the
    infra-failure record, not the parse-failure one and not an error,
    when the model cannot be built (no prompt is sent then), when
    reading the reply's text raises, when [json.loads] raises another
    exception than [JSONDecodeError], when the reply is valid JSON but no
    object (a list, a string, a number, [null]), and when the object
    fails the validation of [DocumentAnalysis]. *)
Theorem analyze_absorbs_failures (text : str) (w : World) :
  truthy (GEMINI_API_KEY E) = true ->
  (forall msg,
     GenerativeModel E (lit "gemini-1.5-flash") = Raises msg ->
     analyze_document_with_gemini E text w = (Return infra_fallback, w))
  /\ (forall reply,
        GenerativeModel E (lit "gemini-1.5-flash") = Returns tt ->
        generate_content E (analysis_prompt text) = Returns reply ->
        (forall msg,
           response_text reply = Raises msg ->
           analyze_document_with_gemini E text w
           = (Return infra_fallback, sent w (analysis_prompt text)))
        /\ (forall raw,
              response_text reply = Returns raw ->
              (forall msg,
                 json_loads E (clean_response raw) = LoadsError msg ->
                 analyze_document_with_gemini E text w
                 = (Return infra_fallback, sent w (analysis_prompt text)))
              /\ (forall v,
                    json_loads E (clean_response raw) = Loaded v ->
                    (forall members, v <> JObject members) ->
                    analyze_document_with_gemini E text w
                    = (Return infra_fallback, sent w (analysis_prompt text)))
              /\ (forall members msg,
                    json_loads E (clean_response raw)
                    = Loaded (JObject members) ->
                    validate_DocumentAnalysis E
                      (member_or members (lit "summary")
                         (JString (lit "Document analysis completed.")))
                      (member_or members (lit "key_clauses") (JArray []))
                      (member_or members (lit "obligations") (JArray []))
                      (member_or members (lit "risks") (JArray []))
                      (member_or members (lit "unusual_terms") (JArray []))
                    = Raises msg ->
                    analyze_document_with_gemini E text w
                    = (Return infra_fallback,
                       sent w (analysis_prompt text))))).
Proof.
  intros Hkey. split.
  - intros msg Hmodel.
    unfold analyze_document_with_gemini, try_except. rewrite Hkey. simpl.
    pose proof (analyze_body_cases E text w) as H. rewrite Hmodel in H.
    rewrite H. reflexivity.
  - intros reply Hmodel Hr. split.
    + intros msg Ht.
      unfold analyze_document_with_gemini, try_except. rewrite Hkey. simpl.
      pose proof (analyze_body_cases E text w) as H.
      rewrite Hmodel, Hr, Ht in H. rewrite H. reflexivity.
    + intros raw Ht.
      rewrite (analyze_answered text w reply raw Hkey Hmodel Hr Ht).
      split; [|split].
      * intros msg Hj. unfold parse_reply. rewrite Hj. reflexivity.
      * intros v Hj Hv.
        destruct (parse_reply_not_object _ _ (sent w (analysis_prompt text))
                    Hj Hv) as [msg ->]. reflexivity.
      * intros members msg Hj Hval.
        rewrite (parse_reply_object _ _ _ Hj), Hval. reflexivity.
Qed.

(** X15: a successful analysis.  With the API key and the model built,
    when the cleaned reply parses as a JSON object and the validation
    accepts it, the result is the validated record, and the validation
    got the object's members [summary], [key_clauses], [obligations],
    [risks] and [unusual_terms], a member that is absent replaced by
    [Document analysis completed.] or by the empty list. *)
Theorem analyze_validated
    (text : str) (w : World) (reply : GenerateContentResponse) (raw : str)
    (members : list (str * json)) (analysis : DocumentAnalysis) :
  truthy (GEMINI_API_KEY E) = true ->
  GenerativeModel E (lit "gemini-1.5-flash") = Returns tt ->
  generate_content E (analysis_prompt text) = Returns reply ->
  response_text reply = Returns raw ->
  json_loads E (clean_response raw) = Loaded (JObject members) ->
  validate_DocumentAnalysis E
    (member_or members (lit "summary")
       (JString (lit "Document analysis completed.")))
    (member_or members (lit "key_clauses") (JArray []))
    (member_or members (lit "obligations") (JArray []))
    (member_or members (lit "risks") (JArray []))
    (member_or members (lit "unusual_terms") (JArray []))
  = Returns analysis ->
  analyze_document_with_gemini E text w
  = (Return analysis, sent w (analysis_prompt text))
  /\ (forall key default,
        (forall v, (key, v) ∉ members) ->
        member_or members key default = default)
  /\ (forall key default v rest,
        members = (key, v) :: rest -> member_or members key default = v).
Proof.
  intros Hkey Hmodel Hr Ht Hj Hval. split; [|split].
  - rewrite (analyze_answered text w reply raw Hkey Hmodel Hr Ht).
    rewrite (parse_reply_object _ _ _ Hj), Hval. reflexivity.
  - intros key default Habsent. unfold member_or.
    destruct (list_find _ members) as [[i [k v]]|] eqn:Hfind; [|reflexivity].
    apply list_find_Some in Hfind as (Hi & Hk & _). simpl in Hk. subst k.
    exfalso. apply (Habsent v). apply list_elem_of_lookup. eauto.
  - intros key default v rest ->. unfold member_or. simpl.
    destruct (decide (key = key)); [reflexivity|contradiction].
Qed.

End AnalysisOutcomes.

(** ** Fenced replies *)

Lemma startswith_here (p s : str) : startswith (p ++ s) p = true.
Proof.
  induction p as [|c p IH]; simpl; [reflexivity|].
  destruct (decide (c = c)); [exact IH|contradiction].
Qed.

Lemma endswith_here (s p : str) : endswith (s ++ p) p = true.
Proof. unfold endswith. rewrite reverse_app. apply startswith_here. Qed.

Lemma slice_drop_last_fence (s : str) :
  slice_drop_last 3 (s ++ backticks) = s.
Proof.
  unfold slice_drop_last. rewrite length_app.
  change (length backticks) with 3%nat. change (Z.to_nat 3) with 3%nat.
  replace (length s + 3 - 3)%nat with (length s) by lia.
  apply take_app_length.
Qed.

(** The text between the fences, once the opening fence is cut. *)
Lemma strip_fence_body (body : str) :
  strip (let t := newline ++ body ++ newline ++ backticks in
         if endswith t backticks then slice_drop_last 3 t else t)
  = strip body.
Proof.
  cbv zeta.
  replace (newline ++ body ++ newline ++ backticks)
    with ((newline ++ body ++ newline) ++ backticks)
    by (rewrite <- !app_assoc; reflexivity).
  rewrite endswith_here, slice_drop_last_fence.
  apply strip_blank_around; reflexivity.
Qed.

Lemma fenced_shape (tag body : str) :
  exists s, fenced tag body = "`"%char :: s ++ ["`"%char].
Proof.
  exists (["`"%char; "`"%char] ++ tag ++ newline ++ body ++ newline
          ++ ["`"%char; "`"%char]).
  unfold fenced. change backticks with ["`"%char; "`"%char; "`"%char].
  simpl. do 3 f_equal. rewrite <- !app_assoc. f_equal.
  simpl. f_equal. rewrite <- !app_assoc. reflexivity.
Qed.

(** X16: a fenced reply is cleaned to its body.  A reply made of a
    [```json] line or a bare [```] line, a body and a closing [```]
    line, with any white space around it, is cleaned to the trimmed
    body, whatever the body holds. *)
Theorem clean_response_fenced (before body after : str) :
  blank before = true ->
  blank after = true ->
  clean_response (before ++ fenced (lit "json") body ++ after) = strip body
  /\ clean_response (before ++ fenced [] body ++ after) = strip body.
Proof.
  intros Hb Ha.
  assert (Hfix : forall tag,
             strip (before ++ fenced tag body ++ after) = fenced tag body).
  { intros tag. rewrite (strip_blank_around _ _ _ Hb Ha).
    destruct (fenced_shape tag body) as [s ->].
    apply strip_fixed; reflexivity. }
  unfold clean_response. rewrite !Hfix. split.
  - change (fenced (lit "json") body)
      with (backticks_json ++ newline ++ body ++ newline ++ backticks).
    rewrite startswith_here.
    change (slice_from 7 (backticks_json ++ newline ++ body ++ newline
                          ++ backticks))
      with (newline ++ body ++ newline ++ backticks).
    change (startswith (newline ++ body ++ newline ++ backticks) backticks)
      with false.
    apply strip_fence_body.
  - change (fenced [] body)
      with (backticks ++ newline ++ body ++ newline ++ backticks).
    change (startswith (backticks ++ newline ++ body ++ newline ++ backticks)
              backticks_json) with false.
    cbv iota. rewrite startswith_here.
    change (slice_from 3 (backticks ++ newline ++ body ++ newline
                          ++ backticks))
      with (newline ++ body ++ newline ++ backticks).
    apply strip_fence_body.
Qed.

(** ** Further runs on the sample environments *)

Lemma upload_document_succeeds_witness :
  exists analysis w',
    upload_document env_ok (upload_of "Lease.PDF" sample_pdf) empty_world
    = (Return {| resp_document_id := lit "doc_20240101_120000_99";
                 resp_filename := lit "Lease.PDF";
                 resp_analysis := analysis;
                 resp_text_length := 99 |}, w')
    /\ size (document_store w') = 1%nat
    /\ clock_reads w' = 2%nat.
Proof.
  assert (Hsize : 0 < len sample_pdf <= 10485760)
    by (vm_compute; split; [reflexivity|discriminate]).
  assert (Hlen : 50 <= len (lit "This lease is made between the landlord and the tenant."
                            ++ newline
                            ++ lit "Rent is due on the first day of each month."))
    by (vm_compute; discriminate).
  destruct (upload_document_succeeds env_ok (upload_of "Lease.PDF" sample_pdf)
              empty_world (lit "Lease.PDF") sample_pdf _
              eq_refl eq_refl eq_refl eq_refl eq_refl Hsize eq_refl Hlen)
    as (analysis & w' & Hup & Hst & Hc & _).
  exists analysis, w'. split; [exact Hup|]. split; [|exact Hc].
  rewrite Hst. reflexivity.
Defined.

Lemma upload_document_read_failure_witness :
  upload_document env_ok
    {| file_filename := Some (lit "lease.pdf");
       file_read := Raises (lit "connection reset") |} empty_world
  = (Raise (HTTPException 500
              (lit "An unexpected error occurred while processing your document. Please try again. Error: "
               ++ lit "connection reset")), empty_world).
Proof.
  exact (upload_document_read_failure env_ok
           {| file_filename := Some (lit "lease.pdf");
              file_read := Raises (lit "connection reset") |} empty_world
           (lit "lease.pdf") (lit "connection reset")
           eq_refl eq_refl eq_refl eq_refl).
Defined.

Lemma upload_document_keeps_store_ok_witness :
  store_ok
    (document_store
       (upload_document env_ok (upload_of "lease.pdf" sample_pdf)
          empty_world).2).
Proof.
  apply upload_document_keeps_store_ok.
  intros id doc H. simpl in H. rewrite lookup_empty in H. discriminate.
Defined.

(** Two uploads in the same second, with different texts of the same
    length: the second takes the identifier of the first. *)
Lemma upload_document_collision_witness :
  let first :=
    upload_document env_same_second (upload_of "a.pdf" (letters Byte.x61))
      empty_world in
  let second :=
    upload_document env_same_second (upload_of "b.pdf" (letters Byte.x62))
      first.2 in
  size (document_store second.2) = size (document_store first.2)
  /\ exists doc,
       document_store second.2 !! lit "doc_20240101_120000_60" = Some doc
       /\ doc_filename doc = lit "b.pdf"
       /\ len (doc_text doc) = 60.
Proof.
  cbv zeta.
  pose (analysis := {| summary := lit "Document analysis completed.";
                       key_clauses := []; obligations := [];
                       risks := []; unusual_terms := [] |}).
  pose (resp1 := {| resp_document_id := lit "doc_20240101_120000_60";
                    resp_filename := lit "a.pdf";
                    resp_analysis := analysis;
                    resp_text_length := 60 |}).
  pose (resp2 := {| resp_document_id := lit "doc_20240101_120000_60";
                    resp_filename := lit "b.pdf";
                    resp_analysis := analysis;
                    resp_text_length := 60 |}).
  assert (H1 : upload_document env_same_second
                 (upload_of "a.pdf" (letters Byte.x61)) empty_world
               = (Return resp1,
                  (upload_document env_same_second
                     (upload_of "a.pdf" (letters Byte.x61)) empty_world).2))
    by (vm_compute; reflexivity).
  assert (H2 : upload_document env_same_second
                 (upload_of "b.pdf" (letters Byte.x62))
                 (upload_document env_same_second
                    (upload_of "a.pdf" (letters Byte.x61)) empty_world).2
               = (Return resp2,
                  (upload_document env_same_second
                     (upload_of "b.pdf" (letters Byte.x62))
                     (upload_document env_same_second
                        (upload_of "a.pdf" (letters Byte.x61))
                        empty_world).2).2))
    by (vm_compute; reflexivity).
  destruct (upload_document_collision env_same_second _ _ _ _ _ _ _ H1 H2
              eq_refl) as (Hsize & doc & Hdoc & Hname & Hlen & _).
  split; [exact Hsize|].
  exists doc. split; [exact Hdoc|]. split; [exact Hname|exact Hlen].
Defined.

Lemma chat_with_document_always_answers_witness :
  exists reply w',
    chat_with_document env_no_model (question_about "Lease text") empty_world
    = (Return {| response := reply;
                 timestamp := isoformat (now env_no_model
                                           (clock_reads empty_world)) |}, w')
    /\ document_store w' = document_store empty_world
    /\ clock_reads w' = S (clock_reads empty_world).
Proof.
  exact (proj2 (chat_with_document_always_answers env_no_model
                  (question_about "Lease text") empty_world) eq_refl).
Defined.

Lemma chat_with_document_reply_witness :
  chat_with_document env_chat (question_about "Lease text") empty_world
  = (Return {| response := lit "The tenant pays the rent.";
               timestamp := lit "2024-01-01T12:00:00" |},
     ticked (sent empty_world
               (chat_prompt (lit "Lease text") (lit "Who pays the rent?")))).
Proof.
  refine (proj1 (chat_with_document_reply env_chat
                   (question_about "Lease text") empty_world
                   (lit "Lease text") eq_refl _ eq_refl)
            {| response_text := Returns (lit "  The tenant pays the rent.  ") |}
            (lit "  The tenant pays the rent.  ") eq_refl eq_refl).
  apply supplied_text; reflexivity.
Defined.

Lemma chat_with_document_model_failure_witness :
  chat_with_document env_no_model (question_about "Lease text") empty_world
  = (Return {| response := chat_error_text (lit "model not found");
               timestamp := isoformat (now env_no_model
                                         (clock_reads empty_world)) |},
     ticked empty_world).
Proof.
  refine (chat_with_document_model_failure env_no_model
            (question_about "Lease text") empty_world
            (lit "Lease text") (lit "model not found") eq_refl _ eq_refl).
  apply supplied_text; reflexivity.
Defined.

Lemma chat_document_id_precedence_witness :
  chat_with_document env_chat
    {| message := lit "Who pays the rent?";
       document_id := Some (lit "doc_20231231_235959_17");
       document_text := Some (lit "Another text") |} one_document_world
  = chat_with_document env_chat
      {| message := lit "Who pays the rent?";
         document_id := Some (lit "doc_20231231_235959_17");
         document_text := None |} one_document_world.
Proof.
  exact (chat_document_id_precedence env_chat (lit "Who pays the rent?")
           (lit "doc_20231231_235959_17") (Some (lit "Another text"))
           one_document_world eq_refl).
Defined.

Lemma upload_then_chat_witness :
  exists resp w' content text,
    upload_document env_chat (upload_of "lease.pdf" sample_pdf) empty_world
    = (Return resp, w')
    /\ file_read (upload_of "lease.pdf" sample_pdf) = Returns content
    /\ (extract_text_from_pdf env_chat content empty_world).1 = Return text
    /\ generation_calls
         (chat_with_document env_chat
            {| message := lit "Who pays the rent?";
               document_id := Some (resp_document_id resp);
               document_text := None |} w').2
       = generation_calls w' ++ [chat_prompt text (lit "Who pays the rent?")].
Proof.
  eassert (Hup : upload_document env_chat (upload_of "lease.pdf" sample_pdf)
                   empty_world = (Return _, _)) by (vm_compute; reflexivity).
  destruct (upload_then_chat env_chat _ _ _ _
              {| message := lit "Who pays the rent?";
                 document_id := Some _;
                 document_text := None |} Hup eq_refl eq_refl)
    as (content & text & Hread & Hx & Hcalls & _).
  eexists _, _, content, text.
  split; [exact Hup|]. split; [exact Hread|]. split; [exact Hx|exact Hcalls].
Defined.

Lemma upload_then_health_check_witness :
  exists resp w' h,
    upload_document env_ok (upload_of "lease.pdf" sample_pdf)
      one_document_world = (Return resp, w')
    /\ health_check env_ok w' = (Return h, w')
    /\ gemini_configured h = true
    /\ resp_document_id resp ∈ stored_document_ids h
    /\ documents_stored h = 2.
Proof.
  eassert (Hup : upload_document env_ok (upload_of "lease.pdf" sample_pdf)
                   one_document_world = (Return _, _))
    by (vm_compute; reflexivity).
  destruct (upload_then_health_check env_ok _ _ _ _ Hup)
    as (h & Hh & Hkey & Hin & Hnew & _).
  eexists _, _, h. split; [exact Hup|]. split; [exact Hh|].
  split; [exact Hkey|]. split; [exact Hin|].
  rewrite Hnew; [reflexivity|]. vm_compute. reflexivity.
Defined.

(** A reply that is a JSON list, not an object. *)
Lemma analyze_absorbs_failures_witness :
  analyze_document_with_gemini (sample_env (lit "key") (replies "[]"))
    (lit "Lease text") empty_world
  = (Return infra_fallback,
     sent empty_world (analysis_prompt (lit "Lease text"))).
Proof.
  refine (proj1 (proj2 (proj2 (proj2
            (analyze_absorbs_failures (sample_env (lit "key") (replies "[]"))
               (lit "Lease text") empty_world eq_refl)
            {| response_text := Returns (lit "[]") |} eq_refl eq_refl)
            (lit "[]") eq_refl)) (JArray []) _ _).
  - vm_compute. reflexivity.
  - intros members. discriminate.
Defined.

Lemma analyze_validated_witness :
  analyze_document_with_gemini env_summary (lit "Lease text") empty_world
  = (Return {| summary := lit "A lease.";
               key_clauses := [];
               obligations := [];
               risks := [];
               unusual_terms := [] |},
     sent empty_world (analysis_prompt (lit "Lease text"))).
Proof.
  refine (proj1 (analyze_validated env_summary (lit "Lease text") empty_world
                   {| response_text := Returns (litq "{^summary^: ^A lease.^}") |}
                   (litq "{^summary^: ^A lease.^}")
                   [(lit "summary", JString (lit "A lease."))]
                   _ eq_refl eq_refl eq_refl eq_refl _ _));
    vm_compute; reflexivity.
Defined.

Lemma clean_response_fenced_witness :
  clean_response
    (lit "  " ++ fenced (lit "json") (litq " {^summary^: ^A lease.^} ")
     ++ newline)
  = litq "{^summary^: ^A lease.^}"
  /\ clean_response (fenced [] (lit "{}")) = lit "{}".
Proof.
  split.
  - exact (proj1 (clean_response_fenced (lit "  ")
                    (litq " {^summary^: ^A lease.^} ") newline
                    eq_refl eq_refl)).
  - exact (proj2 (clean_response_fenced [] (lit "{}") [] eq_refl eq_refl)).
Defined.
